(** * Tip lifecycle of the Opentrons protocol engine

    A shallow embedding of the tip pick-up / drop / nozzle-configuration
    code of [opentrons.protocol_engine.execution.tip_handler],
    [opentrons.protocol_engine.commands.pick_up_tip] and the matching parts
    of [opentrons.protocol_api.instrument_context]. *)

From Stdlib Require Import String Ascii List Bool Arith Lia QArith.
Import ListNotations.
Open Scope nat_scope.
Open Scope string_scope.

(** ** Exceptions and the result of fallible code *)

(** Tip geometry: [length], [diameter] (mm) and [volume] (uL). *)
Record TipGeometry := mkTipGeometry {
  length : Q;
  diameter : Q;
  volume : Q
}.

(** The exception classes raised along the paths modelled here. *)
Inductive exn :=
| CommandPreconditionViolated
| CommandParameterLimitViolated
| KeyError (key : string)
| ValueError
| TypeError
| UnsupportedAPIError
| APIVersionError
| TipNotAttachedError
| TipAttachedError
| ProtocolEngineError
| PickUpTipTipNotAttachedError (tip_geometry : TipGeometry)
| HardwareError.

(** A Python call either returns a value or raises. *)
Inductive result (A : Type) :=
| Ok (a : A)
| Raise (e : exn).
Arguments Ok {A} a.
Arguments Raise {A} e.

Definition bind {A B} (r : result A) (k : A -> result B) : result B :=
  match r with
  | Ok a => k a
  | Raise e => Raise e
  end.

Notation "'let*' x := r 'in' k" := (bind r (fun x => k))
  (at level 200, x name, r at level 100, k at level 200).

(** Python truthiness of an [Optional[str]]: [None] and [""] are falsy. *)
Definition truthy (o : option string) : bool :=
  match o with
  | Some s => negb (String.eqb s "")
  | None => false
  end.

(** A Python [dict] with string keys, as an association list; [d[k]]
    raises [KeyError] on a missing key. *)
Definition dict (A : Type) := list (string * A).

Fixpoint dict_get {A} (d : dict A) (k : string) : option A :=
  match d with
  | [] => None
  | (k', v) :: d' => if String.eqb k k' then Some v else dict_get d' k
  end.

Definition getitem {A} (d : dict A) (k : string) : result A :=
  match dict_get d k with
  | Some v => Ok v
  | None => Raise (KeyError k)
  end.

(** ** Nozzle layout resolver ([_available_for_nozzle_layout]) *)
Module NozzleLayoutResolver.

Definition PRIMARY_NOZZLE_TO_ENDING_NOZZLE_MAP : dict (dict string) :=
  [ ("A1", [("COLUMN", "H1"); ("ROW", "A12")]);
    ("H1", [("COLUMN", "A1"); ("ROW", "H12")]);
    ("A12", [("COLUMN", "H12"); ("ROW", "A1")]);
    ("H12", [("COLUMN", "A12"); ("ROW", "H1")]) ].

Definition PRIMARY_NOZZLE_TO_BACK_LEFT_NOZZLE_MAP : dict (dict string) :=
  [ ("A1", [("COLUMN", "A1"); ("ROW", "A1")]);
    ("H1", [("COLUMN", "A1"); ("ROW", "H1")]);
    ("A12", [("COLUMN", "A12"); ("ROW", "A1")]);
    ("H12", [("COLUMN", "A12"); ("ROW", "H1")]) ].

(** [MAP[primary][style]] *)
Definition lookup2 (m : dict (dict string)) (primary style : string)
  : result string :=
  let* inner := getitem m primary in getitem inner style.

(** The source compares [style] against the literal ["PARTIAL_COLUM"]
    in its second limit check; kept as written. *)
Definition _available_for_nozzle_layout (channels : nat) (style : string)
    (primary_nozzle front_right_nozzle back_left_nozzle : option string)
    : result (dict string) :=
  if Nat.eqb channels 1 then Raise CommandPreconditionViolated
  else if String.eqb style "ALL" then Ok []
  else if String.eqb style "ROW" && Nat.eqb channels 8 then
    Raise CommandParameterLimitViolated
  else if String.eqb style "PARTIAL_COLUM" && Nat.eqb channels 96 then
    Raise CommandParameterLimitViolated
  else
  match primary_nozzle with
  | None => Ok [("primary_nozzle", "A1")]
  | Some p =>
  if negb (truthy primary_nozzle) then Ok [("primary_nozzle", "A1")]
  else if String.eqb style "SINGLE" then Ok [("primary_nozzle", p)]
  else if String.eqb style "QUADRANT" && truthy front_right_nozzle
          && negb (truthy back_left_nozzle) then
    Ok [("primary_nozzle", p);
        ("front_right_nozzle", match front_right_nozzle with Some f => f | None => "" end);
        ("back_left_nozzle", p)]
  else if String.eqb style "QUADRANT" && truthy back_left_nozzle
          && negb (truthy front_right_nozzle) then
    Ok [("primary_nozzle", p);
        ("front_right_nozzle", p);
        ("back_left_nozzle", match back_left_nozzle with Some b => b | None => "" end)]
  else if negb (truthy front_right_nozzle) && truthy back_left_nozzle then
    let* fr := lookup2 PRIMARY_NOZZLE_TO_ENDING_NOZZLE_MAP p style in
    Ok [("primary_nozzle", p);
        ("front_right_nozzle", fr);
        ("back_left_nozzle", match back_left_nozzle with Some b => b | None => "" end)]
  else if truthy front_right_nozzle && negb (truthy back_left_nozzle) then
    let* bl := lookup2 PRIMARY_NOZZLE_TO_BACK_LEFT_NOZZLE_MAP p style in
    Ok [("primary_nozzle", p);
        ("front_right_nozzle", match front_right_nozzle with Some f => f | None => "" end);
        ("back_left_nozzle", bl)]
  else if truthy front_right_nozzle && truthy back_left_nozzle then
    Ok [("primary_nozzle", p);
        ("front_right_nozzle", match front_right_nozzle with Some f => f | None => "" end);
        ("back_left_nozzle", match back_left_nozzle with Some b => b | None => "" end)]
  else
    let* fr := lookup2 PRIMARY_NOZZLE_TO_ENDING_NOZZLE_MAP p style in
    let* bl := lookup2 PRIMARY_NOZZLE_TO_BACK_LEFT_NOZZLE_MAP p style in
    Ok [("primary_nozzle", p);
        ("front_right_nozzle", fr);
        ("back_left_nozzle", bl)]
  end.

End NozzleLayoutResolver.

(** ** Pipette state view, nozzle maps and the hardware gateway *)

Inductive NozzleConfigurationType := COLUMN | ROW | SINGLE | FULL | SUBRECT.

Definition config_eqb (a b : NozzleConfigurationType) : bool :=
  match a, b with
  | COLUMN, COLUMN | ROW, ROW | SINGLE, SINGLE | FULL, FULL
  | SUBRECT, SUBRECT => true
  | _, _ => false
  end.

Record NozzleMap := mkNozzleMap {
  configuration : NozzleConfigurationType;
  starting_nozzle : string;
  back_left : string;
  front_right : string;
  tip_count : nat
}.

Inductive InstrumentProbeType := PRIMARY | SECONDARY.

Inductive TipPresenceStatus := PRESENT | ABSENT | UNKNOWN.

Definition status_eqb (a b : TipPresenceStatus) : bool :=
  match a, b with
  | PRESENT, PRESENT | ABSENT, ABSENT | UNKNOWN, UNKNOWN => true
  | _, _ => false
  end.

(** What [StateView.pipettes] reports about the pipette. *)
Record PipetteView := mkPipetteView {
  channels : nat;
  nozzle_configuration : NozzleMap;
  attached_tip : option TipGeometry;
  serial_number : string
}.

(** The hardware behind [HardwareControlAPI]: whether it is an OT-3 (Flex),
    what its tip presence sensors read for a given sensor selection, and
    whether the opaque pick-up / drop motions fail. *)
Record Hardware := mkHardware {
  is_ot3 : bool;
  sense : option InstrumentProbeType -> TipPresenceStatus;
  pickup_moves_error : option exn;
  drop_moves_error : option exn
}.

(** The tip bookkeeping the hardware controller keeps per mount. *)
Record HwState := mkHwState {
  hw_tip_length : option Q;
  hw_tiprack_diameter : Q;
  hw_working_volume : option Q;
  hw_ready_for_aspirate : bool
}.

(** ** A state-and-exception monad over the hardware bookkeeping *)

Definition M (A : Type) := HwState -> result A * HwState.

Definition ret {A} (a : A) : M A := fun st => (Ok a, st).

Definition raise {A} (e : exn) : M A := fun st => (Raise e, st).

Definition mbind {A B} (m : M A) (k : A -> M B) : M B :=
  fun st =>
    match m st with
    | (Ok a, st') => k a st'
    | (Raise e, st') => (Raise e, st')
    end.

Definition lift {A} (r : result A) : M A := fun st => (r, st).

Definition modify (f : HwState -> HwState) : M unit := fun st => (Ok tt, f st).

Notation "x <- m ;; k" := (mbind m (fun x => k))
  (at level 61, m at next level, right associativity).
Notation "m ;;; k" := (mbind m (fun _ => k))
  (at level 61, right associativity).

(** ** [tip_handler]: presence configuration, verification, pick-up, drop *)
Module TipHandler.

(** Python [int(s)] on a string of decimal digits. *)
Fixpoint digits_value (s : string) (acc : nat) : option nat :=
  match s with
  | EmptyString => Some acc
  | String c s' =>
      let n := nat_of_ascii c in
      if Nat.leb 48 n && Nat.leb n 57 then digits_value s' (acc * 10 + (n - 48))
      else None
  end.

Definition py_int (s : string) : result nat :=
  match s with
  | EmptyString => Raise ValueError
  | _ => match digits_value s 0 with
         | Some n => Ok n
         | None => Raise ValueError
         end
  end.

(** [s[1:]] *)
Definition drop1 (s : string) : string :=
  match s with
  | EmptyString => EmptyString
  | String _ r => r
  end.

Definition tip_on_left_side_96 (back_left_nozzle : string) : result bool :=
  let* left_most_column := py_int (drop1 back_left_nozzle) in
  Ok (Nat.eqb left_most_column 1).

Definition tip_on_right_side_96 (front_right_nozzle : string) : result bool :=
  let* right_most_column := py_int (drop1 front_right_nozzle) in
  Ok (Nat.eqb right_most_column 12).

Definition supported_partial_nozzle_minimum := 4.

Definition get_tip_presence_config (pv : PipetteView)
    : result (bool * option InstrumentProbeType) :=
  let nozzle_configuration := nozzle_configuration pv in
  let ch := channels pv in
  if Nat.eqb ch 1 then Ok (true, None)
  else if Nat.eqb ch 8 then
    Ok (Nat.leb supported_partial_nozzle_minimum (tip_count nozzle_configuration), None)
  else if Nat.eqb ch 96 then
    let tip_presence_supported :=
      negb (config_eqb (configuration nozzle_configuration) SINGLE)
      && Nat.leb supported_partial_nozzle_minimum (tip_count nozzle_configuration) in
    if negb (config_eqb (configuration nozzle_configuration) FULL)
       && tip_presence_supported then
      let* use_left := tip_on_left_side_96 (back_left nozzle_configuration) in
      let* use_right := tip_on_right_side_96 (front_right nozzle_configuration) in
      if negb (use_left && use_right) then
        if use_left then Ok (tip_presence_supported, Some PRIMARY)
        else Ok (tip_presence_supported, Some SECONDARY)
      else Ok (tip_presence_supported, None)
    else Ok (tip_presence_supported, None)
  else Raise ValueError.

(** Modelled from the spec: the hardware gateway's own presence check
    ([OT3API.verify_tip_presence], outside this slice). It reads the
    sensors selected by [follow_singular_sensor] and fails with
    [FailedTipStateCheck] when the reading differs from [expected];
    [true] here means that check failed. *)
Definition ot3_check_fails (hw : Hardware) (expected : TipPresenceStatus)
    (follow_singular_sensor : option InstrumentProbeType) : bool :=
  negb (status_eqb (sense hw follow_singular_sensor) expected).

(** [verify_tip_presence]: [ensure_ot3_hardware] raising
    [HardwareNotSupportedError] is caught and ignored; a failed check is
    translated by the expected status. *)
Definition verify_tip_presence (hw : Hardware) (expected : TipPresenceStatus)
    (follow_singular_sensor : option InstrumentProbeType) : result unit :=
  if negb (is_ot3 hw) then Ok tt
  else if ot3_check_fails hw expected follow_singular_sensor then
    match expected with
    | ABSENT => Raise TipAttachedError
    | PRESENT => Raise TipNotAttachedError
    | UNKNOWN => Raise ProtocolEngineError
    end
  else Ok tt.

Definition cache_tip (tip : TipGeometry) : M unit :=
  modify (fun st => mkHwState (Some (length tip)) (diameter tip)
                              (Some (volume tip)) (hw_ready_for_aspirate st)).

Definition remove_tip : M unit :=
  modify (fun st => mkHwState None 0%Q (hw_working_volume st)
                              (hw_ready_for_aspirate st)).

Definition prepare_for_aspirate : M unit :=
  modify (fun st => mkHwState (hw_tip_length st) (hw_tiprack_diameter st)
                              (hw_working_volume st) true).

Definition tip_pickup_moves (hw : Hardware) : M unit :=
  match pickup_moves_error hw with
  | Some e => raise e
  | None => ret tt
  end.

Definition tip_drop_moves (hw : Hardware) : M unit :=
  match drop_moves_error hw with
  | Some e => raise e
  | None => ret tt
  end.

(** Modelled from the spec: [LabwareDataProvider.get_calibrated_tip_length]
    (outside this slice) returns the calibration record for the pipette
    serial and tip rack when there is one, else [nominal_fallback]. *)
Definition get_calibrated_tip_length (record : option Q) (nominal_fallback : Q) : Q :=
  match record with
  | Some l => l
  | None => nominal_fallback
  end.

(** The geometry [pick_up_tip] resolves before any motion or sensing. *)
Definition resolve_tip_geometry (nominal_tip_geometry : TipGeometry)
    (calibration : option Q) : TipGeometry :=
  mkTipGeometry
    (get_calibrated_tip_length calibration (length nominal_tip_geometry))
    (diameter nominal_tip_geometry)
    (volume nominal_tip_geometry).

(** [HardwareTipHandler.pick_up_tip]. [nominal_tip_geometry] is what
    [state_view.geometry.get_nominal_tip_geometry] returns for the well and
    [calibration] the calibration record found for the pipette and rack. *)
Definition pick_up_tip (pv : PipetteView) (hw : Hardware)
    (nominal_tip_geometry : TipGeometry) (calibration : option Q)
    (do_not_ignore_tip_presence : bool) : M TipGeometry :=
  let tip_geometry := resolve_tip_geometry nominal_tip_geometry calibration in
  tip_pickup_moves hw ;;;
  cfg <- lift (get_tip_presence_config pv) ;;
  let '(tip_presence_supported, follow_singular_sensor) := cfg in
  (if do_not_ignore_tip_presence && tip_presence_supported then
     match verify_tip_presence hw PRESENT follow_singular_sensor with
     | Ok _ => ret tt
     | Raise TipNotAttachedError => raise (PickUpTipTipNotAttachedError tip_geometry)
     | Raise e => raise e
     end
   else ret tt) ;;;
  cache_tip tip_geometry ;;;
  prepare_for_aspirate ;;;
  ret tip_geometry.

(** [HardwareTipHandler.drop_tip] ([home_after], [ignore_plunger] and
    [scrape_type] only shape the opaque drop motion). *)
Definition drop_tip (hw : Hardware) (do_not_ignore_tip_presence : bool) : M unit :=
  tip_drop_moves hw ;;;
  (if do_not_ignore_tip_presence then lift (verify_tip_presence hw ABSENT None)
   else ret tt) ;;;
  remove_tip.

Inductive TipHandlerKind := HardwareTipHandler | VirtualTipHandler.

(** [available_for_nozzle_layout] of both handler classes (the bodies are
    the same in the source). *)
Definition available_for_nozzle_layout (kind : TipHandlerKind) (pv : PipetteView)
    (style : string) (primary_nozzle front_right_nozzle back_left_nozzle : option string)
    : result (dict string) :=
  match kind with
  | HardwareTipHandler =>
      match attached_tip pv with
      | Some _ => Raise CommandPreconditionViolated
      | None =>
          NozzleLayoutResolver._available_for_nozzle_layout (channels pv) style
            primary_nozzle front_right_nozzle back_left_nozzle
      end
  | VirtualTipHandler =>
      match attached_tip pv with
      | Some _ => Raise CommandPreconditionViolated
      | None =>
          NozzleLayoutResolver._available_for_nozzle_layout (channels pv) style
            primary_nozzle front_right_nozzle back_left_nozzle
      end
  end.

End TipHandler.

(** ** State-update deltas and the [pickUpTip] command *)
Module PickUpTipCommand.

(** A sparse field of a delta: [NO_CHANGE] or a new value. *)
Inductive change (A : Type) := NO_CHANGE | Set_ (a : A).
Arguments NO_CHANGE {A}.
Arguments Set_ {A} a.

Inductive FluidUpdate :=
| FluidEmpty (clean_tip : bool)
| FluidUnknown.

(** Modelled from the spec: [update_types.StateUpdate] (outside this slice),
    a sparse set of field changes keyed by pipette or labware id, with one
    builder method per field and [reduce], the merge in which a later
    non-[NO_CHANGE] field wins. Only the fields [pickUpTip] touches are
    kept. *)
Record StateUpdate := mkStateUpdate {
  pipette_location : change (string * string * string);
  pipette_tip_state : change (string * option TipGeometry);
  tips_used : change (string * list string);
  pipette_aspirated_fluid : change (string * FluidUpdate);
  ready_to_aspirate : change (string * bool)
}.

Definition empty_update : StateUpdate :=
  mkStateUpdate NO_CHANGE NO_CHANGE NO_CHANGE NO_CHANGE NO_CHANGE.

Definition merge {A} (a b : change A) : change A :=
  match b with
  | NO_CHANGE => a
  | Set_ _ => b
  end.

Definition reduce (u v : StateUpdate) : StateUpdate :=
  mkStateUpdate
    (merge (pipette_location u) (pipette_location v))
    (merge (pipette_tip_state u) (pipette_tip_state v))
    (merge (tips_used u) (tips_used v))
    (merge (pipette_aspirated_fluid u) (pipette_aspirated_fluid v))
    (merge (ready_to_aspirate u) (ready_to_aspirate v)).

Definition set_pipette_location (u : StateUpdate) (pipette_id labware_id well_name : string)
    : StateUpdate :=
  {| pipette_location := Set_ (pipette_id, labware_id, well_name);
     pipette_tip_state := pipette_tip_state u; tips_used := tips_used u;
     pipette_aspirated_fluid := pipette_aspirated_fluid u;
     ready_to_aspirate := ready_to_aspirate u |}.

Definition update_pipette_tip_state (u : StateUpdate) (pipette_id : string)
    (tip_geometry : option TipGeometry) : StateUpdate :=
  {| pipette_location := pipette_location u;
     pipette_tip_state := Set_ (pipette_id, tip_geometry); tips_used := tips_used u;
     pipette_aspirated_fluid := pipette_aspirated_fluid u;
     ready_to_aspirate := ready_to_aspirate u |}.

Definition mark_tips_as_used (u : StateUpdate) (labware_id : string)
    (well_names : list string) : StateUpdate :=
  {| pipette_location := pipette_location u;
     pipette_tip_state := pipette_tip_state u; tips_used := Set_ (labware_id, well_names);
     pipette_aspirated_fluid := pipette_aspirated_fluid u;
     ready_to_aspirate := ready_to_aspirate u |}.

Definition set_fluid_empty (u : StateUpdate) (pipette_id : string) (clean_tip : bool)
    : StateUpdate :=
  {| pipette_location := pipette_location u;
     pipette_tip_state := pipette_tip_state u; tips_used := tips_used u;
     pipette_aspirated_fluid := Set_ (pipette_id, FluidEmpty clean_tip);
     ready_to_aspirate := ready_to_aspirate u |}.

Definition set_fluid_unknown (u : StateUpdate) (pipette_id : string) : StateUpdate :=
  {| pipette_location := pipette_location u;
     pipette_tip_state := pipette_tip_state u; tips_used := tips_used u;
     pipette_aspirated_fluid := Set_ (pipette_id, FluidUnknown);
     ready_to_aspirate := ready_to_aspirate u |}.

Definition set_pipette_ready_to_aspirate (u : StateUpdate) (pipette_id : string)
    (ready : bool) : StateUpdate :=
  {| pipette_location := pipette_location u;
     pipette_tip_state := pipette_tip_state u; tips_used := tips_used u;
     pipette_aspirated_fluid := pipette_aspirated_fluid u;
     ready_to_aspirate := Set_ (pipette_id, ready) |}.

Inductive PublicError := TipPhysicallyMissingError | StallOrCollisionError.

Record PickUpTipResult := mkPickUpTipResult {
  tipVolume : Q;
  tipLength : Q;
  tipDiameter : Q;
  position : Q * Q * Q
}.

Inductive ExecuteReturn :=
| SuccessData (public : PickUpTipResult) (state_update : StateUpdate)
| DefinedErrorData (public : PublicError) (state_update : StateUpdate)
    (state_update_if_false_positive : option StateUpdate).

(** Modelled from the spec: the outcome of the opaque [move_to_well]
    (outside this slice): a stall or collision defined error, or the
    reached position with a delta recording the pipette's new location. *)
Inductive MoveOutcome :=
| MoveStalled
| MoveReached (position : Q * Q * Q).

Record PickUpTipParams := mkPickUpTipParams {
  pipetteId : string;
  labwareId : string;
  wellName : string
}.

Section Execute.

(** The state-view lookups [execute] makes: the tips a pick-up at a well
    consumes under a nozzle map, the nominal tip geometry of a well, and
    the calibration record of a pipette serial on a tip rack. *)
Variable compute_tips_to_mark_as_used : string -> string -> NozzleMap -> list string.
Variable get_nominal_tip_geometry : string -> string -> TipGeometry.
Variable calibration_record : string -> string -> option Q.

(** [PickUpTipImplementation.execute] on the hardware tip handler. *)
Definition execute (pv : PipetteView) (hw : Hardware) (move : MoveOutcome)
    (params : PickUpTipCommand.PickUpTipParams) : M ExecuteReturn :=
  let pipette_id := pipetteId params in
  let labware_id := labwareId params in
  let well_name := wellName params in
  let tips_to_mark_as_used :=
    compute_tips_to_mark_as_used labware_id well_name (nozzle_configuration pv) in
  match move with
  | MoveStalled => ret (DefinedErrorData StallOrCollisionError empty_update None)
  | MoveReached pos =>
    let move_state_update := set_pipette_location empty_update pipette_id labware_id well_name in
    fun st =>
    match TipHandler.pick_up_tip pv hw (get_nominal_tip_geometry labware_id well_name)
            (calibration_record (serial_number pv) labware_id) true st with
    | (Raise (PickUpTipTipNotAttachedError g), st') =>
        let state_update_if_false_positive :=
          mark_tips_as_used
            (set_fluid_empty
               (update_pipette_tip_state (reduce empty_update move_state_update)
                  pipette_id (Some g))
               pipette_id true)
            labware_id tips_to_mark_as_used in
        let state_update :=
          set_fluid_unknown
            (mark_tips_as_used (reduce empty_update move_state_update)
               labware_id tips_to_mark_as_used)
            pipette_id in
        (Ok (DefinedErrorData TipPhysicallyMissingError state_update
               (Some state_update_if_false_positive)), st')
    | (Raise e, st') => (Raise e, st')
    | (Ok tip_geometry, st') =>
        let state_update :=
          set_pipette_ready_to_aspirate
            (set_fluid_empty
               (mark_tips_as_used
                  (update_pipette_tip_state move_state_update pipette_id (Some tip_geometry))
                  labware_id tips_to_mark_as_used)
               pipette_id true)
            pipette_id true in
        (Ok (SuccessData
               (mkPickUpTipResult (volume tip_geometry) (length tip_geometry)
                  (diameter tip_geometry) pos)
               state_update), st')
    end
  end.

End Execute.

End PickUpTipCommand.

(** ** [protocol_api.InstrumentContext]: tip pick-up entry and nozzle layout *)
Module InstrumentContext.

(** [APIVersion(major, minor)], compared lexicographically. *)
Definition APIVersion := (nat * nat)%type.

Definition ver_lt (a b : APIVersion) : bool :=
  Nat.ltb (fst a) (fst b) || (Nat.eqb (fst a) (fst b) && Nat.ltb (snd a) (snd b)).

Definition ver_ge (a b : APIVersion) : bool := negb (ver_lt a b).

Definition _PREP_AFTER_ADDED_IN : APIVersion := (2, 13).
Definition _PRESSES_INCREMENT_REMOVED_IN : APIVersion := (2, 14).
Definition _PARTIAL_NOZZLE_CONFIGURATION_ADDED_IN : APIVersion := (2, 16).
Definition _PARTIAL_NOZZLE_CONFIGURATION_AUTOMATIC_TIP_TRACKING_IN : APIVersion := (2, 18).
Definition _PARTIAL_NOZZLE_CONFIGURATION_SINGLE_ROW_PARTIAL_COLUMN_ADDED_IN : APIVersion := (2, 20).

(** Python [x is not None]. *)
Definition is_not_none {A} (o : option A) : bool :=
  match o with Some _ => true | None => false end.

(** The [location] argument of [pick_up_tip]. *)
Inductive PickUpLocation :=
| NoLocation
| AtWell (well : string)
| AtLabware (labware : string)
| AtLocationOfWell (well : string)
| AtLocationOfLabware (labware : string)
| AtOtherLocation.

(** Where the tip will come from once the argument checks are passed:
    the next available tip (from [starting_tip] when given) of the
    instrument's racks or of one rack, or an explicit well. *)
Inductive TipSelection :=
| NextAvailableTip (starting_tip : option string)
| NextAvailableTipIn (labware : string)
| ExplicitWell (well : string).

(** The checks of [InstrumentContext.pick_up_tip] up to the choice of the
    tip; [nozzle_config] is the configuration of [self._core.get_nozzle_map()]
    and [tip_tracking_available] is [self._core.is_tip_tracking_available()]. *)
Definition pick_up_tip (api_version : APIVersion) (presses : option nat)
    (increment : option Q) (prep_after : option bool) (location : PickUpLocation)
    (starting_tip : option string) (nozzle_config : NozzleConfigurationType)
    (tip_tracking_available : bool) : result TipSelection :=
  if is_not_none presses && ver_ge api_version _PRESSES_INCREMENT_REMOVED_IN then
    Raise UnsupportedAPIError
  else if is_not_none increment && ver_ge api_version _PRESSES_INCREMENT_REMOVED_IN then
    Raise UnsupportedAPIError
  else if is_not_none prep_after && ver_lt api_version _PREP_AFTER_ADDED_IN then
    Raise APIVersionError
  else
  let nozzle_map :=
    if ver_ge api_version _PARTIAL_NOZZLE_CONFIGURATION_AUTOMATIC_TIP_TRACKING_IN
    then Some nozzle_config else None in
  match location with
  | NoLocation =>
      if match nozzle_map with
         | Some c => negb (config_eqb c FULL) && is_not_none starting_tip
         | None => false
         end
      then Raise CommandPreconditionViolated
      else if negb tip_tracking_available then Raise CommandPreconditionViolated
      else Ok (NextAvailableTip starting_tip)
  | AtWell w => Ok (ExplicitWell w)
  | AtLabware l => Ok (NextAvailableTipIn l)
  | AtLocationOfWell w => Ok (ExplicitWell w)
  | AtLocationOfLabware l => Ok (NextAvailableTipIn l)
  | AtOtherLocation => Raise TypeError
  end.

Inductive NozzleLayout := L_SINGLE | L_ROW | L_COLUMN | L_PARTIAL_COLUMN | L_QUADRANT | L_ALL.

Definition nozzle_layout_value (s : NozzleLayout) : string :=
  match s with
  | L_SINGLE => "SINGLE" | L_ROW => "ROW" | L_COLUMN => "COLUMN"
  | L_PARTIAL_COLUMN => "PARTIAL_COLUMN" | L_QUADRANT => "QUADRANT" | L_ALL => "ALL"
  end.

Definition ALLOWED_PRIMARY_NOZZLES := ["A1"; "H1"; "A12"; "H12"].

(** [c in s] for a one-character string [c]. *)
Definition char_in (c : ascii) (s : string) : bool :=
  existsb (Ascii.eqb c) (list_ascii_of_string s).

Definition any_truthy (l : list (option string)) : bool := existsb truthy l.

Definition _raise_if_has_end_or_front_right_or_back_left
    (end_ front_right back_left : option string) : result unit :=
  if any_truthy [end_; front_right; back_left] then Raise ValueError else Ok tt.

Definition _check_valid_start_nozzle (start : option string) : result string :=
  match start with
  | None => Raise ValueError
  | Some s =>
      if existsb (String.eqb s) ALLOWED_PRIMARY_NOZZLES then Ok s else Raise ValueError
  end.

(** [start[0]]; [start] is one of [ALLOWED_PRIMARY_NOZZLES] here. *)
Definition first_char (s : string) : ascii :=
  match s with
  | String c _ => c
  | EmptyString => " "%char
  end.

Definition _check_valid_end_nozzle (start : string) (end_ : option string) : result string :=
  match end_ with
  | None => Raise ValueError
  | Some e =>
      if char_in (first_char start) e then Raise ValueError
      else if String.eqb start "H1" || String.eqb start "H12" then
        if char_in "A"%char e then Raise ValueError else Ok e
      else if String.eqb start "A1" || String.eqb start "A12" then
        if char_in "H"%char e then Raise ValueError else Ok e
      else Ok e
  end.

Definition _raise_if_has_front_right_or_back_left_for_partial_column
    (front_right back_left : option string) : result unit :=
  if any_truthy [front_right; back_left] then Raise ValueError else Ok tt.

Definition _raise_if_has_end_nozzle_for_quadrant (end_ : option string) : result unit :=
  if is_not_none end_ then Raise ValueError else Ok tt.

Definition _raise_if_no_front_right_or_back_left_for_quadrant
    (front_right back_left : option string) : result unit :=
  match front_right, back_left with
  | None, None => Raise ValueError
  | _, _ => Ok tt
  end.

Definition _raise_if_configuration_not_supported_by_pipette (channels : nat)
    (style : NozzleLayout) : result unit :=
  match style with
  | L_COLUMN | L_ROW => if Nat.eqb channels 96 then Ok tt else Raise ValueError
  | L_PARTIAL_COLUMN => if Nat.eqb channels 8 then Ok tt else Raise ValueError
  | _ => Ok tt
  end.

(** [InstrumentContext.configure_nozzle_layout] (with its
    [@requires_version(2, 16)]); returns the [primary_nozzle],
    [front_right_nozzle] and [back_left_nozzle] it hands to
    [self._core.configure_nozzle_layout]. *)
Definition configure_nozzle_layout (api_version : APIVersion) (channels : nat)
    (style : NozzleLayout) (start end_ front_right back_left : option string)
    : result (option string * option string * option string) :=
  if ver_lt api_version (2, 16) then Raise APIVersionError
  else if match style with L_QUADRANT => true | _ => false end then
    Raise UnsupportedAPIError
  else if ver_lt api_version _PARTIAL_NOZZLE_CONFIGURATION_SINGLE_ROW_PARTIAL_COLUMN_ADDED_IN
          && match style with L_COLUMN | L_ALL => false | _ => true end then
    Raise APIVersionError
  else
  match style with
  | L_SINGLE =>
      let* validated_start := _check_valid_start_nozzle start in
      let* _ := _raise_if_has_end_or_front_right_or_back_left end_ front_right back_left in
      Ok (Some validated_start, front_right, back_left)
  | L_COLUMN | L_ROW =>
      let* _ := _raise_if_configuration_not_supported_by_pipette channels style in
      let* validated_start := _check_valid_start_nozzle start in
      let* _ := _raise_if_has_end_or_front_right_or_back_left end_ front_right back_left in
      Ok (Some validated_start, front_right, back_left)
  | L_PARTIAL_COLUMN =>
      let* _ := _raise_if_configuration_not_supported_by_pipette channels style in
      let* validated_start := _check_valid_start_nozzle start in
      let* validated_end := _check_valid_end_nozzle validated_start end_ in
      let* _ := _raise_if_has_front_right_or_back_left_for_partial_column front_right back_left in
      if String.eqb validated_start "H1" || String.eqb validated_start "H12" then
        Ok (Some validated_start, Some validated_start, Some validated_end)
      else if match start with
              | Some s => String.eqb s "A1" || String.eqb s "A12"
              | None => false
              end then
        Ok (Some validated_start, Some validated_end, Some validated_start)
      else Ok (Some validated_start, front_right, back_left)
  | L_QUADRANT =>
      let* validated_start := _check_valid_start_nozzle start in
      let* _ := _raise_if_has_end_nozzle_for_quadrant end_ in
      let* _ := _raise_if_no_front_right_or_back_left_for_quadrant front_right back_left in
      match front_right, back_left with
      | None, _ => Ok (Some validated_start, Some validated_start, back_left)
      | Some _, None => Ok (Some validated_start, front_right, Some validated_start)
      | Some _, Some _ => Ok (Some validated_start, front_right, back_left)
      end
  | L_ALL => Ok (start, front_right, back_left)
  end.

End InstrumentContext.

(** ** The [configureNozzleLayout] command *)
Module ConfigureNozzleLayout.

(** Row index of a nozzle name: [A] is 0, ..., [H] is 7. *)
Definition row_index (name : string) : result nat :=
  match name with
  | String c _ =>
      let n := nat_of_ascii c in
      if Nat.leb 65 n && Nat.leb n 72 then Ok (n - 65) else Raise ValueError
  | EmptyString => Raise ValueError
  end.

Definition column_number (name : string) : result nat :=
  TipHandler.py_int (TipHandler.drop1 name).

Definition physical_rows (channels : nat) : nat := if Nat.eqb channels 1 then 1 else 8.

Definition physical_columns (channels : nat) : nat := if Nat.eqb channels 96 then 12 else 1.

Definition full_front_right (channels : nat) : string :=
  if Nat.eqb channels 96 then "H12" else if Nat.eqb channels 8 then "H1" else "A1".

(** Modelled from the spec: building the pipette's [NozzleMap] from the
    resolver's overrides (hardware controller, outside this slice). Empty
    overrides give the full map; otherwise the active nozzles are the
    rectangle from [back_left_nozzle] to [front_right_nozzle] (each
    defaulting to the primary nozzle), [tip_count] is its size and the
    configuration is [FULL] exactly when every physical nozzle is active. *)
Definition build_nozzle_map (channels : nat) (overrides : dict string) : result NozzleMap :=
  let physical := physical_rows channels * physical_columns channels in
  match overrides with
  | [] => Ok (mkNozzleMap FULL "A1" "A1" (full_front_right channels) physical)
  | _ =>
    let* primary := getitem overrides "primary_nozzle" in
    let bl := match dict_get overrides "back_left_nozzle" with Some b => b | None => primary end in
    let fr := match dict_get overrides "front_right_nozzle" with Some f => f | None => primary end in
    let* r0 := row_index bl in
    let* r1 := row_index fr in
    let* c0 := column_number bl in
    let* c1 := column_number fr in
    if Nat.ltb r1 r0 || Nat.ltb c1 c0 || Nat.eqb c0 0
       || Nat.leb (physical_rows channels) r1 || Nat.ltb (physical_columns channels) c1
    then Raise ValueError
    else
    let rows := r1 - r0 + 1 in
    let cols := c1 - c0 + 1 in
    let n := rows * cols in
    let cfg :=
      if Nat.eqb n physical then FULL
      else if Nat.eqb n 1 then SINGLE
      else if Nat.eqb cols 1 && Nat.eqb rows (physical_rows channels) then COLUMN
      else if Nat.eqb rows 1 && Nat.eqb cols (physical_columns channels) then ROW
      else SUBRECT in
    Ok (mkNozzleMap cfg primary bl fr n)
  end.

(** Modelled from the spec: the [configureNozzleLayout] command (outside
    this slice) asks the tip handler whether the layout is available and
    then replaces the pipette's nozzle map wholesale. *)
Definition configure_nozzle_layout (kind : TipHandler.TipHandlerKind) (pv : PipetteView)
    (style : string) (primary_nozzle front_right_nozzle back_left_nozzle : option string)
    : result PipetteView :=
  let* overrides := TipHandler.available_for_nozzle_layout kind pv style
                      primary_nozzle front_right_nozzle back_left_nozzle in
  let* nm := build_nozzle_map (channels pv) overrides in
  Ok (mkPipetteView (channels pv) nm (attached_tip pv) (serial_number pv)).

(** Modelled from the spec: the engine core forwards the layout style's
    value and the three nozzles the protocol API resolved to the command. *)
Definition configure_from_protocol (api_version : InstrumentContext.APIVersion)
    (pv : PipetteView) (style : InstrumentContext.NozzleLayout)
    (start end_ front_right back_left : option string) : result PipetteView :=
  let* resolved := InstrumentContext.configure_nozzle_layout api_version (channels pv)
                     style start end_ front_right back_left in
  let '(p, fr, bl) := resolved in
  configure_nozzle_layout TipHandler.HardwareTipHandler pv
    (InstrumentContext.nozzle_layout_value style) p fr bl.

End ConfigureNozzleLayout.

(** ** Mounts ([opentrons.types]) *)

(** [Mount], the hardware controller's mount enum. *)
Module Mount.

Inductive Mount := LEFT | RIGHT | EXTENSION.

Definition ot2_mounts : list Mount := [LEFT; RIGHT].

Definition string_to_mount (mount : string) : Mount :=
  if String.eqb mount "right" then RIGHT
  else if String.eqb mount "left" then LEFT
  else EXTENSION.

End Mount.

(** [MountType], the engine's mount enum (a [str] enum). *)
Module MountType.

Inductive MountType := LEFT | RIGHT | EXTENSION.

Definition value (m : MountType) : string :=
  match m with LEFT => "left" | RIGHT => "right" | EXTENSION => "extension" end.

Definition other_mount (m : MountType) : MountType :=
  match m with RIGHT => LEFT | _ => RIGHT end.

(** The source's dict has a key for every member, so the lookup is total. *)
Definition to_hw_mount (m : MountType) : Mount.Mount :=
  match m with
  | LEFT => Mount.LEFT
  | RIGHT => Mount.RIGHT
  | EXTENSION => Mount.EXTENSION
  end.

(** [mount_map[mount]] over a dict without [Mount.EXTENSION]; the
    [KeyError] carries the missing member's name. *)
Definition from_hw_mount (mount : Mount.Mount) : result MountType :=
  match mount with
  | Mount.LEFT => Ok LEFT
  | Mount.RIGHT => Ok RIGHT
  | Mount.EXTENSION => Raise (KeyError "EXTENSION")
  end.

End MountType.

(** * Properties *)

(** Case analysis on every string and number comparison in the goal. *)
Ltac split_eqb :=
  repeat match goal with
  | |- context [String.eqb ?a ?b] => destruct (String.eqb_spec a b); subst
  | |- context [Nat.eqb ?a ?b] => destruct (Nat.eqb_spec a b); subst
  end.

Module ResolverFacts.
Import NozzleLayoutResolver.

Definition corners := ["A1"; "H1"; "A12"; "H12"].

Lemma lookup2_ending_keyerror (p style : string) :
  ~ In style ["COLUMN"; "ROW"] \/ ~ In p corners ->
  exists k, lookup2 PRIMARY_NOZZLE_TO_ENDING_NOZZLE_MAP p style = Raise (KeyError k).
Proof.
  intros H. unfold lookup2, getitem, bind; simpl.
  split_eqb; simpl; split_eqb; simpl; eauto;
  exfalso; unfold corners in H; destruct H as [H | H]; apply H; simpl; auto.
Qed.

Lemma lookup2_back_left_keyerror (p style : string) :
  ~ In style ["COLUMN"; "ROW"] \/ ~ In p corners ->
  exists k, lookup2 PRIMARY_NOZZLE_TO_BACK_LEFT_NOZZLE_MAP p style = Raise (KeyError k).
Proof.
  intros H. unfold lookup2, getitem, bind; simpl.
  split_eqb; simpl; split_eqb; simpl; eauto;
  exfalso; unfold corners in H; destruct H as [H | H]; apply H; simpl; auto.
Qed.

End ResolverFacts.

(** Claim C3. A ROW layout on an 8-channel pipette is refused with
    [CommandParameterLimitViolated] whatever the nozzles; the matching guard
    for PARTIAL_COLUMN on a 96-channel pipette compares the style with the
    misspelled ["PARTIAL_COLUM"], so the style ["PARTIAL_COLUMN"] on a
    96-channel pipette is not refused (it resolves to primary nozzle A1),
    while only the misspelled style is. *)
Theorem partial_column_96_not_refused :
  (forall p fr bl,
     NozzleLayoutResolver._available_for_nozzle_layout 8 "ROW" p fr bl
     = Raise CommandParameterLimitViolated)
  /\ NozzleLayoutResolver._available_for_nozzle_layout 96 "PARTIAL_COLUMN" None None None
     = Ok [("primary_nozzle", "A1")]
  /\ NozzleLayoutResolver._available_for_nozzle_layout 96 "PARTIAL_COLUM" None None None
     = Raise CommandParameterLimitViolated.
Proof.
  split; [| split; reflexivity].
  intros p fr bl. reflexivity.
Qed.

(** Claim C10 (amended). On a multi-channel pipette, when the style is not
    ALL or SINGLE, is not refused by a limit check, a non-empty primary
    nozzle is given, front_right and back_left are not both given, a
    QUADRANT style does not come with exactly one of them, and either the
    style is neither COLUMN nor ROW or the primary nozzle is not one of
    A1, H1, A12, H12, the resolver raises [KeyError]. *)
Theorem resolver_raises_key_error (channels : nat) (style p : string)
    (fr bl : option string) :
  channels <> 1 -> style <> "ALL" -> style <> "SINGLE" ->
  ~ (style = "ROW" /\ channels = 8) ->
  ~ (style = "PARTIAL_COLUM" /\ channels = 96) ->
  p <> "" ->
  ~ (truthy fr = true /\ truthy bl = true) ->
  (style = "QUADRANT" -> truthy fr = truthy bl) ->
  ~ In style ["COLUMN"; "ROW"] \/ ~ In p ResolverFacts.corners ->
  exists k, NozzleLayoutResolver._available_for_nozzle_layout channels style (Some p) fr bl
            = Raise (KeyError k).
Proof.
  intros Hc Hall Hsingle Hrow Hpc Hp Hboth Hq Hkey.
  destruct (ResolverFacts.lookup2_ending_keyerror p style Hkey) as [k1 Hk1].
  destruct (ResolverFacts.lookup2_back_left_keyerror p style Hkey) as [k2 Hk2].
  unfold NozzleLayoutResolver._available_for_nozzle_layout.
  destruct (Nat.eqb_spec channels 1); [contradiction |].
  destruct (String.eqb_spec style "ALL"); [contradiction |].
  destruct (String.eqb_spec style "ROW"), (Nat.eqb_spec channels 8); simpl;
    try (exfalso; tauto).
  all: destruct (String.eqb_spec style "PARTIAL_COLUM"), (Nat.eqb_spec channels 96); simpl;
    try (exfalso; tauto).
  all: assert (Ep : String.eqb p "" = false) by (apply String.eqb_neq; exact Hp);
       simpl; rewrite ?Ep; simpl.
  all: destruct (String.eqb_spec style "SINGLE"); [contradiction |]; simpl.
  all: destruct (String.eqb_spec style "QUADRANT");
       destruct (truthy fr) eqn:Efr, (truthy bl) eqn:Ebl; simpl;
       try (exfalso; congruence);
       try (exfalso; tauto);
       try (specialize (Hq ltac:(assumption)); congruence);
       try (rewrite Hk1; simpl; eauto);
       try (rewrite Hk2; simpl; eauto).
Qed.

(** Witness for claim C10: QUADRANT on a 96-channel pipette with primary
    nozzle A1 and neither corner given. *)
Lemma resolver_raises_key_error_witness :
  exists k, NozzleLayoutResolver._available_for_nozzle_layout 96 "QUADRANT" (Some "A1") None None
            = Raise (KeyError k).
Proof.
  apply (resolver_raises_key_error 96 "QUADRANT" "A1" None None);
    try discriminate; simpl.
  - intros [H _]; discriminate.
  - intros [H _]; discriminate.
  - intros [H _]; discriminate.
  - intros _; reflexivity.
  - left; intros [H | [H | H]]; [discriminate | discriminate | exact H].
Defined.

(** Counterexample to claim C10: PARTIAL_COLUMN on an 8-channel pipette
    with a primary nozzle and both corners given (the corners the protocol
    API resolves for start A1, end D1) resolves without any [KeyError]. *)
Lemma partial_column_8_with_corners_no_key_error :
  ~ (exists k, NozzleLayoutResolver._available_for_nozzle_layout 8 "PARTIAL_COLUMN"
                 (Some "A1") (Some "D1") (Some "A1") = Raise (KeyError k)).
Proof.
  intros [k H]. vm_compute in H. discriminate.
Qed.

(** Claim C5. On a 96-channel pipette whose configuration is neither FULL
    nor SINGLE and which has at least 4 active tips (so presence sensing is
    supported), with the back-left nozzle in column [cl] and the
    front-right nozzle in column [cr]: no single sensor is followed when
    [cl = 1] and [cr = 12], the PRIMARY sensor when only [cl = 1], and the
    SECONDARY sensor otherwise. *)
Theorem follow_singular_sensor_96 (pv : PipetteView) (cl cr : nat) :
  channels pv = 96 ->
  configuration (nozzle_configuration pv) <> FULL ->
  configuration (nozzle_configuration pv) <> SINGLE ->
  4 <= tip_count (nozzle_configuration pv) ->
  TipHandler.py_int (TipHandler.drop1 (back_left (nozzle_configuration pv))) = Ok cl ->
  TipHandler.py_int (TipHandler.drop1 (front_right (nozzle_configuration pv))) = Ok cr ->
  TipHandler.get_tip_presence_config pv
  = Ok (true, if Nat.eqb cl 1 && Nat.eqb cr 12 then None
              else if Nat.eqb cl 1 then Some PRIMARY else Some SECONDARY).
Proof.
  destruct pv as [ch [cfg sn bl fr tc] at_ ser]; simpl.
  intros Hch Hfull Hsingle Htc Hl Hr; subst ch.
  unfold TipHandler.get_tip_presence_config, TipHandler.supported_partial_nozzle_minimum,
    TipHandler.tip_on_left_side_96, TipHandler.tip_on_right_side_96; simpl.
  destruct tc as [| [| [| [| tc]]]]; try lia. rewrite Hl, Hr; simpl.
  destruct cfg; try contradiction; simpl;
  destruct (Nat.eqb cl 1), (Nat.eqb cr 12); reflexivity.
Qed.

(** Witness for claim C5: a 96-channel subrectangle from A3 to H12 follows
    the secondary sensor. *)
Lemma follow_singular_sensor_96_witness :
  TipHandler.get_tip_presence_config (mkPipetteView 96 (mkNozzleMap SUBRECT "A3" "A3" "H12" 80) None "P96")
  = Ok (true, Some SECONDARY).
Proof.
  apply (follow_singular_sensor_96 (mkPipetteView 96 (mkNozzleMap SUBRECT "A3" "A3" "H12" 80) None "P96") 3 12);
    simpl; try reflexivity; try discriminate; lia.
Defined.

(** Counterexample to claim C4: a single-channel pipette (one active
    nozzle) on Flex hardware is configured as supporting presence sensing,
    and [pick_up_tip] does verify: with the sensor reading ABSENT it raises
    [PickUpTipTipNotAttachedError] instead of skipping the check. *)
Lemma single_channel_verifies_presence :
  TipHandler.get_tip_presence_config
    (mkPipetteView 1 (mkNozzleMap FULL "A1" "A1" "A1" 1) None "P1") = Ok (true, None)
  /\ fst (TipHandler.pick_up_tip
            (mkPipetteView 1 (mkNozzleMap FULL "A1" "A1" "A1" 1) None "P1")
            (mkHardware true (fun _ => ABSENT) None None)
            (mkTipGeometry 50 5 200) None true
            (mkHwState None 0 None false))
     = Raise (PickUpTipTipNotAttachedError (mkTipGeometry 50 5 200)).
Proof. split; reflexivity. Qed.

(** When presence sensing is unsupported, [pick_up_tip] never consults
    the sensors: after a successful pick-up motion it caches the resolved
    geometry and returns it. *)
Lemma TipHandler_pick_up_tip_unsupported (pv : PipetteView) f hw nominal calibration
    do_not_ignore st :
  TipHandler.get_tip_presence_config pv = Ok (false, f) ->
  pickup_moves_error hw = None ->
  let g := TipHandler.resolve_tip_geometry nominal calibration in
  TipHandler.pick_up_tip pv hw nominal calibration do_not_ignore st
  = (Ok g, mkHwState (Some (length g)) (diameter g) (Some (volume g)) true).
Proof.
  intros Hcfg Hmv g.
  unfold TipHandler.pick_up_tip, TipHandler.tip_pickup_moves.
  rewrite Hmv. cbn [mbind ret lift]. rewrite Hcfg. cbn.
  rewrite andb_false_r. reflexivity.
Qed.

(** Claim C4 (amended). Presence sensing is reported unsupported exactly
    for 8-channel pipettes with fewer than 4 active tips and 96-channel
    pipettes with a SINGLE layout or fewer than 4 active tips;
    single-channel pipettes are always supported and any other channel
    count raises [ValueError]. When it is unsupported, [pick_up_tip] skips
    verification altogether: once the pick-up motion succeeds it returns
    the resolved geometry without consulting the sensors and never
    raises. *)
Theorem tip_presence_support (pv : PipetteView) :
  (channels pv = 1 -> TipHandler.get_tip_presence_config pv = Ok (true, None))
  /\ (channels pv = 8 ->
      TipHandler.get_tip_presence_config pv
      = Ok (Nat.leb 4 (tip_count (nozzle_configuration pv)), None))
  /\ (channels pv <> 1 -> channels pv <> 8 -> channels pv <> 96 ->
      TipHandler.get_tip_presence_config pv = Raise ValueError)
  /\ (forall s f, TipHandler.get_tip_presence_config pv = Ok (s, f) ->
      (s = false <->
       (channels pv = 8 /\ tip_count (nozzle_configuration pv) < 4)
       \/ (channels pv = 96 /\ (configuration (nozzle_configuration pv) = SINGLE
                                \/ tip_count (nozzle_configuration pv) < 4))))
  /\ (forall f hw nominal calibration do_not_ignore st,
      TipHandler.get_tip_presence_config pv = Ok (false, f) ->
      pickup_moves_error hw = None ->
      let g := TipHandler.resolve_tip_geometry nominal calibration in
      TipHandler.pick_up_tip pv hw nominal calibration do_not_ignore st
      = (Ok g, mkHwState (Some (length g)) (diameter g) (Some (volume g)) true)).
Proof.
  split; [| split; [| split; [| split]]].
  5: { intros f hw nominal calibration do_not_ignore st Hcfg Hmv.
       exact (TipHandler_pick_up_tip_unsupported pv f hw nominal calibration do_not_ignore st
                Hcfg Hmv). }
  all: destruct pv as [ch [cfg sn bl fr tc] at_ ser];
       unfold TipHandler.get_tip_presence_config, TipHandler.supported_partial_nozzle_minimum;
       cbn [channels nozzle_configuration tip_count configuration back_left front_right];
       assert (Hb : Nat.leb 4 tc = false <-> tc < 4) by apply Nat.leb_gt;
       remember (Nat.leb 4 tc) as b eqn:Eb; clear Eb.
  - intros ->; reflexivity.
  - intros ->; reflexivity.
  - intros H1 H8 H96. split_eqb; try contradiction; reflexivity.
  - intros s f H.
    destruct (Nat.eqb_spec ch 1) as [-> | H1]; cbn in H.
    + injection H as <- _. split; [discriminate | intros [[H _] | [H _]]; discriminate].
    + destruct (Nat.eqb_spec ch 8) as [-> | H8]; cbn in H.
      * injection H as <- _. split.
        -- intros Hs. left. split; [reflexivity |]. apply Hb. exact Hs.
        -- intros [[_ Hlt] | [H _]]; [apply Hb; exact Hlt | discriminate].
      * destruct (Nat.eqb_spec ch 96) as [-> | H96]; cbn in H; [| discriminate].
        assert (Hs : s = negb (config_eqb cfg SINGLE) && b).
        { destruct (negb (config_eqb cfg FULL) && (negb (config_eqb cfg SINGLE) && b)).
          - destruct (TipHandler.tip_on_left_side_96 bl) as [l |]; cbn in H; [| discriminate].
            destruct (TipHandler.tip_on_right_side_96 fr) as [r |]; cbn in H; [| discriminate].
            destruct (negb (l && r)), l; injection H as <- _; reflexivity.
          - injection H as <- _; reflexivity. }
        subst s. split.
        -- intros Hs. right. split; [reflexivity |].
           destruct cfg; cbn in Hs; auto; right; apply Hb; exact Hs.
        -- intros [[H8' _] | [_ [Hc | Hlt]]]; [discriminate | subst cfg; reflexivity |].
           apply Hb in Hlt. rewrite Hlt. apply andb_false_r.
Qed.

(** Claim C1. When the pick-up motion succeeds, presence sensing is
    supported and the Flex sensor reads ABSENT, [pickUpTip] returns (does
    not raise) a [TipPhysicallyMissingError] defined error. Its genuine
    delta records the move, marks the tips of the nozzle map as used and
    sets the fluid state to unknown without touching the tip state; its
    false-positive delta records the move, commits the geometry resolved
    before the verification, sets the fluid empty with a clean tip and
    marks the same tips used. Nothing is cached on the hardware. *)
Theorem pick_up_tip_absent_defined_error compute_tips_to_mark_as_used
    get_nominal_tip_geometry calibration_record (pv : PipetteView) (hw : Hardware)
    (pos : Q * Q * Q) (params : PickUpTipCommand.PickUpTipParams) (st : HwState)
    (follow : option InstrumentProbeType) :
  pickup_moves_error hw = None ->
  TipHandler.get_tip_presence_config pv = Ok (true, follow) ->
  is_ot3 hw = true ->
  sense hw follow = ABSENT ->
  let pid := PickUpTipCommand.pipetteId params in
  let lid := PickUpTipCommand.labwareId params in
  let wn := PickUpTipCommand.wellName params in
  let g := TipHandler.resolve_tip_geometry (get_nominal_tip_geometry lid wn)
             (calibration_record (serial_number pv) lid) in
  let tips := compute_tips_to_mark_as_used lid wn (nozzle_configuration pv) in
  PickUpTipCommand.execute compute_tips_to_mark_as_used get_nominal_tip_geometry
    calibration_record pv hw (PickUpTipCommand.MoveReached pos) params st
  = (Ok (PickUpTipCommand.DefinedErrorData PickUpTipCommand.TipPhysicallyMissingError
          (PickUpTipCommand.mkStateUpdate (PickUpTipCommand.Set_ (pid, lid, wn))
             PickUpTipCommand.NO_CHANGE (PickUpTipCommand.Set_ (lid, tips))
             (PickUpTipCommand.Set_ (pid, PickUpTipCommand.FluidUnknown))
             PickUpTipCommand.NO_CHANGE)
          (Some (PickUpTipCommand.mkStateUpdate (PickUpTipCommand.Set_ (pid, lid, wn))
             (PickUpTipCommand.Set_ (pid, Some g)) (PickUpTipCommand.Set_ (lid, tips))
             (PickUpTipCommand.Set_ (pid, PickUpTipCommand.FluidEmpty true))
             PickUpTipCommand.NO_CHANGE))),
     st).
Proof.
  intros Hmv Hcfg Hot3 Hsense.
  unfold PickUpTipCommand.execute, TipHandler.pick_up_tip, TipHandler.tip_pickup_moves.
  rewrite Hmv. cbn [mbind ret lift]. rewrite Hcfg. cbn [mbind ret lift andb].
  unfold TipHandler.verify_tip_presence, TipHandler.ot3_check_fails.
  rewrite Hot3, Hsense. reflexivity.
Qed.

(** Claim C2. When the pick-up motion succeeds and presence sensing is
    unsupported, not available (non-Flex hardware) or reads PRESENT,
    [pickUpTip] succeeds with one delta that records the move, commits the
    resolved geometry as the tip, marks the tips of the nozzle map as used,
    sets the fluid empty with a clean tip and the pipette ready to
    aspirate; the hardware caches that geometry. *)
Theorem pick_up_tip_present_success compute_tips_to_mark_as_used
    get_nominal_tip_geometry calibration_record (pv : PipetteView) (hw : Hardware)
    (pos : Q * Q * Q) (params : PickUpTipCommand.PickUpTipParams) (st : HwState)
    (supported : bool) (follow : option InstrumentProbeType) :
  pickup_moves_error hw = None ->
  TipHandler.get_tip_presence_config pv = Ok (supported, follow) ->
  supported = false \/ is_ot3 hw = false \/ sense hw follow = PRESENT ->
  let pid := PickUpTipCommand.pipetteId params in
  let lid := PickUpTipCommand.labwareId params in
  let wn := PickUpTipCommand.wellName params in
  let g := TipHandler.resolve_tip_geometry (get_nominal_tip_geometry lid wn)
             (calibration_record (serial_number pv) lid) in
  let tips := compute_tips_to_mark_as_used lid wn (nozzle_configuration pv) in
  PickUpTipCommand.execute compute_tips_to_mark_as_used get_nominal_tip_geometry
    calibration_record pv hw (PickUpTipCommand.MoveReached pos) params st
  = (Ok (PickUpTipCommand.SuccessData
          (PickUpTipCommand.mkPickUpTipResult (volume g) (length g) (diameter g) pos)
          (PickUpTipCommand.mkStateUpdate (PickUpTipCommand.Set_ (pid, lid, wn))
             (PickUpTipCommand.Set_ (pid, Some g)) (PickUpTipCommand.Set_ (lid, tips))
             (PickUpTipCommand.Set_ (pid, PickUpTipCommand.FluidEmpty true))
             (PickUpTipCommand.Set_ (pid, true)))),
     mkHwState (Some (length g)) (diameter g) (Some (volume g)) true).
Proof.
  intros Hmv Hcfg Hcase.
  unfold PickUpTipCommand.execute, TipHandler.pick_up_tip, TipHandler.tip_pickup_moves.
  rewrite Hmv. cbn [mbind ret lift]. rewrite Hcfg. cbn [mbind ret lift andb].
  unfold TipHandler.verify_tip_presence, TipHandler.ot3_check_fails.
  destruct Hcase as [-> | [-> | Hs]]; [reflexivity | destruct supported; reflexivity |].
  destruct supported; [| reflexivity].
  destruct (is_ot3 hw); [rewrite Hs |]; reflexivity.
Qed.

(** Witness for claim C1: a single-channel Flex pipette whose sensor
    reads ABSENT. *)
Lemma pick_up_tip_absent_defined_error_witness :
  PickUpTipCommand.execute (fun _ _ _ => ["A1"]) (fun _ _ => mkTipGeometry 50 5 200)
    (fun _ _ => Some 49%Q) (mkPipetteView 1 (mkNozzleMap FULL "A1" "A1" "A1" 1) None "P1")
    (mkHardware true (fun _ => ABSENT) None None) (PickUpTipCommand.MoveReached (0%Q, 0%Q, 0%Q))
    (PickUpTipCommand.mkPickUpTipParams "pip" "rack" "A1") (mkHwState None 0 None false)
  = (Ok (PickUpTipCommand.DefinedErrorData PickUpTipCommand.TipPhysicallyMissingError
          (PickUpTipCommand.mkStateUpdate (PickUpTipCommand.Set_ ("pip", "rack", "A1"))
             PickUpTipCommand.NO_CHANGE (PickUpTipCommand.Set_ ("rack", ["A1"]))
             (PickUpTipCommand.Set_ ("pip", PickUpTipCommand.FluidUnknown))
             PickUpTipCommand.NO_CHANGE)
          (Some (PickUpTipCommand.mkStateUpdate (PickUpTipCommand.Set_ ("pip", "rack", "A1"))
             (PickUpTipCommand.Set_ ("pip", Some (mkTipGeometry 49 5 200)))
             (PickUpTipCommand.Set_ ("rack", ["A1"]))
             (PickUpTipCommand.Set_ ("pip", PickUpTipCommand.FluidEmpty true))
             PickUpTipCommand.NO_CHANGE))),
     mkHwState None 0 None false).
Proof.
  exact (pick_up_tip_absent_defined_error (fun _ _ _ => ["A1"])
           (fun _ _ => mkTipGeometry 50 5 200) (fun _ _ => Some 49%Q)
           (mkPipetteView 1 (mkNozzleMap FULL "A1" "A1" "A1" 1) None "P1")
           (mkHardware true (fun _ => ABSENT) None None) (0%Q, 0%Q, 0%Q)
           (PickUpTipCommand.mkPickUpTipParams "pip" "rack" "A1") (mkHwState None 0 None false)
           None eq_refl eq_refl eq_refl eq_refl).
Defined.

(** Witness for claim C2: an 8-channel Flex pipette with a full map whose
    sensors read PRESENT. *)
Lemma pick_up_tip_present_success_witness :
  PickUpTipCommand.execute (fun _ _ _ => ["A1"; "B1"]) (fun _ _ => mkTipGeometry 50 5 200)
    (fun _ _ => None) (mkPipetteView 8 (mkNozzleMap FULL "A1" "A1" "H1" 8) None "P8")
    (mkHardware true (fun _ => PRESENT) None None) (PickUpTipCommand.MoveReached (1%Q, 2%Q, 3%Q))
    (PickUpTipCommand.mkPickUpTipParams "pip" "rack" "A1") (mkHwState None 0 None false)
  = (Ok (PickUpTipCommand.SuccessData
          (PickUpTipCommand.mkPickUpTipResult 200 50 5 (1%Q, 2%Q, 3%Q))
          (PickUpTipCommand.mkStateUpdate (PickUpTipCommand.Set_ ("pip", "rack", "A1"))
             (PickUpTipCommand.Set_ ("pip", Some (mkTipGeometry 50 5 200)))
             (PickUpTipCommand.Set_ ("rack", ["A1"; "B1"]))
             (PickUpTipCommand.Set_ ("pip", PickUpTipCommand.FluidEmpty true))
             (PickUpTipCommand.Set_ ("pip", true)))),
     mkHwState (Some 50%Q) 5 (Some 200%Q) true).
Proof.
  exact (pick_up_tip_present_success (fun _ _ _ => ["A1"; "B1"])
           (fun _ _ => mkTipGeometry 50 5 200) (fun _ _ => None)
           (mkPipetteView 8 (mkNozzleMap FULL "A1" "A1" "H1" 8) None "P8")
           (mkHardware true (fun _ => PRESENT) None None) (1%Q, 2%Q, 3%Q)
           (PickUpTipCommand.mkPickUpTipParams "pip" "rack" "A1") (mkHwState None 0 None false)
           true None eq_refl eq_refl (or_intror (or_intror eq_refl))).
Defined.

(** Claim C7. After a successful drop motion with verification on, a Flex
    sensor reading PRESENT makes [drop_tip] raise [TipAttachedError] (an
    exception, not a defined error) with the hardware's tip bookkeeping
    unchanged; and whenever [drop_tip] returns, the tip was removed from
    the bookkeeping and verification was skipped or read ABSENT. *)
Theorem drop_tip_attached_raises (hw : Hardware) (st : HwState) :
  (drop_moves_error hw = None -> is_ot3 hw = true -> sense hw None = PRESENT ->
   TipHandler.drop_tip hw true st = (Raise TipAttachedError, st))
  /\ (forall do_not_ignore r st',
      TipHandler.drop_tip hw do_not_ignore st = (Ok r, st') ->
      st' = mkHwState None 0 (hw_working_volume st) (hw_ready_for_aspirate st)
      /\ (do_not_ignore = false \/ is_ot3 hw = false \/ sense hw None = ABSENT)).
Proof.
  split.
  - intros Hmv Hot3 Hs.
    unfold TipHandler.drop_tip, TipHandler.tip_drop_moves, TipHandler.verify_tip_presence,
      TipHandler.ot3_check_fails.
    rewrite Hmv, Hot3, Hs. reflexivity.
  - intros b r st' H.
    unfold TipHandler.drop_tip, TipHandler.tip_drop_moves, TipHandler.verify_tip_presence,
      TipHandler.ot3_check_fails in H.
    destruct (drop_moves_error hw); [discriminate H |].
    destruct b; [| cbn in H; injection H as _ <-; auto].
    destruct (is_ot3 hw); [| cbn in H; injection H as _ <-; auto].
    destruct (sense hw None) eqn:Hs; cbn in H; try discriminate H.
    injection H as _ <-; auto.
Qed.

(** Claim C8. On either tip handler, a pipette with a tip attached makes
    [available_for_nozzle_layout] raise [CommandPreconditionViolated] for
    every style and nozzle argument, so the [configureNozzleLayout] command
    raises it too and no new nozzle map is produced. *)
Theorem nozzle_layout_refused_with_tip (kind : TipHandler.TipHandlerKind)
    (pv : PipetteView) (style : string)
    (primary_nozzle front_right_nozzle back_left_nozzle : option string) (tip : TipGeometry) :
  attached_tip pv = Some tip ->
  TipHandler.available_for_nozzle_layout kind pv style primary_nozzle front_right_nozzle
    back_left_nozzle = Raise CommandPreconditionViolated
  /\ ConfigureNozzleLayout.configure_nozzle_layout kind pv style primary_nozzle
       front_right_nozzle back_left_nozzle = Raise CommandPreconditionViolated.
Proof.
  intros Ht.
  unfold ConfigureNozzleLayout.configure_nozzle_layout, TipHandler.available_for_nozzle_layout.
  destruct kind; rewrite Ht; split; reflexivity.
Qed.

(** Witness for claim C8: a virtual 96-channel pipette holding a tip. *)
Lemma nozzle_layout_refused_with_tip_witness :
  TipHandler.available_for_nozzle_layout TipHandler.VirtualTipHandler
    (mkPipetteView 96 (mkNozzleMap FULL "A1" "A1" "H12" 96) (Some (mkTipGeometry 50 5 200)) "P96")
    "COLUMN" (Some "A1") None None = Raise CommandPreconditionViolated
  /\ ConfigureNozzleLayout.configure_nozzle_layout TipHandler.VirtualTipHandler
    (mkPipetteView 96 (mkNozzleMap FULL "A1" "A1" "H12" 96) (Some (mkTipGeometry 50 5 200)) "P96")
    "COLUMN" (Some "A1") None None = Raise CommandPreconditionViolated.
Proof.
  exact (nozzle_layout_refused_with_tip TipHandler.VirtualTipHandler
           (mkPipetteView 96 (mkNozzleMap FULL "A1" "A1" "H12" 96)
              (Some (mkTipGeometry 50 5 200)) "P96")
           "COLUMN" (Some "A1") None None (mkTipGeometry 50 5 200) eq_refl).
Defined.

(** Version comparisons reduce to comparisons of the components. *)
Ltac ver_cases :=
  unfold InstrumentContext.ver_ge, InstrumentContext.ver_lt in *; cbn [fst snd] in *;
  repeat match goal with
  | |- context [Nat.ltb ?a ?b] => destruct (Nat.ltb_spec a b)
  | |- context [Nat.eqb ?a ?b] => destruct (Nat.eqb_spec a b)
  | H : context [Nat.ltb ?a ?b] |- _ => destruct (Nat.ltb_spec a b)
  | H : context [Nat.eqb ?a ?b] |- _ => destruct (Nat.eqb_spec a b)
  end; cbn in *; try lia; try congruence.

Lemma ver_ge_weaken (api : InstrumentContext.APIVersion) (m n : nat) :
  n <= m -> InstrumentContext.ver_ge api (2, m) = true ->
  InstrumentContext.ver_lt api (2, n) = false.
Proof. destruct api as [ma mi]. intros Hnm H. ver_cases. Qed.

(** Counterexample to claim C6: for start A1 and end D1 on an 8-channel
    pipette, the protocol API hands the engine front_right D1 and
    back_left A1, not front_right A1 and back_left D1. *)
Lemma partial_column_a1_d1_corners :
  ~ (exists p, InstrumentContext.configure_nozzle_layout (2, 20) 8
                 InstrumentContext.L_PARTIAL_COLUMN (Some "A1") (Some "D1") None None
               = Ok (p, Some "A1", Some "D1")).
Proof.
  intros [p H]. vm_compute in H. discriminate.
Qed.

(** Claim C6 (amended). At API version 2.20 or later, an 8-channel pipette
    without a tip configured with PARTIAL_COLUMN, start A1 and end D1
    resolves to primary nozzle A1, front_right D1 and back_left A1, and
    the configured nozzle map spans A1 to D1 with 4 tips. *)
Theorem partial_column_a1_d1_layout (api : InstrumentContext.APIVersion) (pv : PipetteView) :
  InstrumentContext.ver_ge api (2, 20) = true ->
  channels pv = 8 ->
  attached_tip pv = None ->
  InstrumentContext.configure_nozzle_layout api 8 InstrumentContext.L_PARTIAL_COLUMN
    (Some "A1") (Some "D1") None None = Ok (Some "A1", Some "D1", Some "A1")
  /\ exists pv',
       ConfigureNozzleLayout.configure_from_protocol api pv InstrumentContext.L_PARTIAL_COLUMN
         (Some "A1") (Some "D1") None None = Ok pv'
       /\ starting_nozzle (nozzle_configuration pv') = "A1"
       /\ front_right (nozzle_configuration pv') = "D1"
       /\ back_left (nozzle_configuration pv') = "A1"
       /\ tip_count (nozzle_configuration pv') = 4.
Proof.
  intros Hv Hch Ht.
  assert (Hapi : InstrumentContext.configure_nozzle_layout api 8
                   InstrumentContext.L_PARTIAL_COLUMN (Some "A1") (Some "D1") None None
                 = Ok (Some "A1", Some "D1", Some "A1")).
  { unfold InstrumentContext.configure_nozzle_layout,
      InstrumentContext._PARTIAL_NOZZLE_CONFIGURATION_SINGLE_ROW_PARTIAL_COLUMN_ADDED_IN.
    rewrite (ver_ge_weaken api 20 16) by (lia || exact Hv).
    rewrite (ver_ge_weaken api 20 20) by (lia || exact Hv).
    reflexivity. }
  split; [exact Hapi |].
  unfold ConfigureNozzleLayout.configure_from_protocol.
  rewrite Hch, Hapi. cbn [bind].
  unfold ConfigureNozzleLayout.configure_nozzle_layout, TipHandler.available_for_nozzle_layout.
  rewrite Ht, Hch. eexists. split; [reflexivity |]. repeat split.
Qed.

(** Witness for claim C6: API version 2.20 and an empty 8-channel
    pipette with its full map. *)
Lemma partial_column_a1_d1_layout_witness :
  InstrumentContext.configure_nozzle_layout (2, 20) 8 InstrumentContext.L_PARTIAL_COLUMN
    (Some "A1") (Some "D1") None None = Ok (Some "A1", Some "D1", Some "A1")
  /\ exists pv',
       ConfigureNozzleLayout.configure_from_protocol (2, 20)
         (mkPipetteView 8 (mkNozzleMap FULL "A1" "A1" "H1" 8) None "P8")
         InstrumentContext.L_PARTIAL_COLUMN (Some "A1") (Some "D1") None None = Ok pv'
       /\ starting_nozzle (nozzle_configuration pv') = "A1"
       /\ front_right (nozzle_configuration pv') = "D1"
       /\ back_left (nozzle_configuration pv') = "A1"
       /\ tip_count (nozzle_configuration pv') = 4.
Proof.
  exact (partial_column_a1_d1_layout (2, 20)
           (mkPipetteView 8 (mkNozzleMap FULL "A1" "A1" "H1" 8) None "P8")
           eq_refl eq_refl eq_refl).
Defined.

(** Counterexample to claim C9: at API version 2.17 no nozzle map is
    consulted, so a call with no location, a COLUMN configuration and a
    starting tip goes on to automatic tip selection from that tip. *)
Lemma starting_tip_partial_allowed_before_2_18 :
  InstrumentContext.pick_up_tip (2, 17) None None None InstrumentContext.NoLocation
    (Some "B1") COLUMN true
  = Ok (InstrumentContext.NextAvailableTip (Some "B1")).
Proof. reflexivity. Qed.

(** Claim C9 (amended). At API version 2.18 or later, a [pick_up_tip] call
    with no location and without the removed [presses] and [increment]
    arguments raises [CommandPreconditionViolated] before any tip selection
    when the nozzle configuration is not FULL and [starting_tip] is set. *)
Theorem starting_tip_partial_refused (api : InstrumentContext.APIVersion)
    (prep_after : option bool) (starting_tip : string)
    (nozzle_config : NozzleConfigurationType) (tip_tracking_available : bool) :
  InstrumentContext.ver_ge api (2, 18) = true ->
  nozzle_config <> FULL ->
  InstrumentContext.pick_up_tip api None None prep_after InstrumentContext.NoLocation
    (Some starting_tip) nozzle_config tip_tracking_available
  = Raise CommandPreconditionViolated.
Proof.
  intros Hv Hfull.
  unfold InstrumentContext.pick_up_tip, InstrumentContext._PREP_AFTER_ADDED_IN,
    InstrumentContext._PARTIAL_NOZZLE_CONFIGURATION_AUTOMATIC_TIP_TRACKING_IN.
  rewrite (ver_ge_weaken api 18 13) by (lia || exact Hv).
  rewrite andb_false_r. cbn [InstrumentContext.is_not_none andb].
  rewrite Hv.
  destruct nozzle_config; try contradiction; reflexivity.
Qed.

(** Witness for claim C9: API version 2.20, a SINGLE configuration and
    starting tip H12. *)
Lemma starting_tip_partial_refused_witness :
  InstrumentContext.pick_up_tip (2, 20) None None None InstrumentContext.NoLocation
    (Some "H12") SINGLE true
  = Raise CommandPreconditionViolated.
Proof.
  exact (starting_tip_partial_refused (2, 20) None "H12" SINGLE true eq_refl
           ltac:(discriminate)).
Defined.

(** ** Further properties of the modelled code *)

Module ExtraFacts.

(** A failed [MAP[primary][style]] lookup is a [KeyError]. *)
Lemma lookup2_raise (m : dict (dict string)) (p s : string) (e : exn) :
  NozzleLayoutResolver.lookup2 m p s = Raise e -> exists k, e = KeyError k.
Proof.
  unfold NozzleLayoutResolver.lookup2, getitem, bind.
  destruct (dict_get m p); [destruct (dict_get d s) |]; intros H;
    try discriminate H; injection H as <-; eauto.
Qed.

(** Case analysis on the conditions and map lookups of the resolver. *)
Ltac resolver_cases :=
  repeat match goal with
  | |- context [if ?c then _ else _] => destruct c eqn:?
  | |- context [bind (NozzleLayoutResolver.lookup2 ?m ?a ?b) _] =>
      destruct (NozzleLayoutResolver.lookup2 m a b) eqn:?; cbn [bind]
  end.

(** [get_tip_presence_config] only ever raises [ValueError]. *)
Lemma get_tip_presence_config_raise (pv : PipetteView) (e : exn) :
  TipHandler.get_tip_presence_config pv = Raise e -> e = ValueError.
Proof.
  unfold TipHandler.get_tip_presence_config, TipHandler.tip_on_left_side_96,
    TipHandler.tip_on_right_side_96, TipHandler.py_int.
  repeat match goal with
  | |- context [if ?c then _ else _] => destruct c
  | |- context [match ?x with EmptyString => _ | String _ _ => _ end] => destruct x
  | |- context [match TipHandler.digits_value ?s ?a with Some _ => _ | None => _ end] =>
      destruct (TipHandler.digits_value s a)
  | |- _ => progress cbn [bind]
  end; intros H; try discriminate H; injection H as <-; reflexivity.
Qed.


(** When [verify_tip_presence] raises, the hardware is an OT-3 and the
    exception is the one for the expected status. *)
Lemma verify_raise (hw : Hardware) (expected : TipPresenceStatus)
    (follow : option InstrumentProbeType) (e : exn) :
  TipHandler.verify_tip_presence hw expected follow = Raise e ->
  is_ot3 hw = true
  /\ e = match expected with
         | ABSENT => TipAttachedError
         | PRESENT => TipNotAttachedError
         | UNKNOWN => ProtocolEngineError
         end.
Proof.
  unfold TipHandler.verify_tip_presence.
  destruct (is_ot3 hw); cbn [negb]; [| discriminate].
  destruct (TipHandler.ot3_check_fails hw expected follow); [| discriminate].
  destruct expected; intros H; injection H as <-; auto.
Qed.

(** A start nozzle that passes [_check_valid_start_nozzle] is one of the
    four corners and is returned unchanged. *)
Lemma check_start_ok (start : option string) (v : string) :
  InstrumentContext._check_valid_start_nozzle start = Ok v ->
  start = Some v /\ In v InstrumentContext.ALLOWED_PRIMARY_NOZZLES.
Proof.
  destruct start as [s |]; unfold InstrumentContext._check_valid_start_nozzle;
    [| intros H; discriminate H].
  destruct (existsb (String.eqb s) InstrumentContext.ALLOWED_PRIMARY_NOZZLES) eqn:E;
    [| intros H; discriminate H].
  intros H. injection H as <-. split; [reflexivity |].
  apply existsb_exists in E. destruct E as [x [Hx Ex]].
  apply String.eqb_eq in Ex. subst x. exact Hx.
Qed.

(** An end nozzle that passes [_check_valid_end_nozzle] was given, shares
    no letter with the start's row and avoids the opposite edge row. *)
Lemma check_end_ok (s : string) (end_ : option string) (w : string) :
  InstrumentContext._check_valid_end_nozzle s end_ = Ok w ->
  end_ = Some w
  /\ InstrumentContext.char_in (InstrumentContext.first_char s) w = false
  /\ (s = "H1" \/ s = "H12" -> InstrumentContext.char_in "A"%char w = false)
  /\ (s = "A1" \/ s = "A12" -> InstrumentContext.char_in "H"%char w = false).
Proof.
  destruct end_ as [e |]; unfold InstrumentContext._check_valid_end_nozzle;
    [| intros H; discriminate H].
  destruct (InstrumentContext.char_in (InstrumentContext.first_char s) e) eqn:Er;
    [intros H; discriminate H |].
  destruct (String.eqb_spec s "H1"), (String.eqb_spec s "H12"); cbn [orb]; subst;
    try (destruct (InstrumentContext.char_in "A"%char e) eqn:Ea;
         [intros H; discriminate H | intros H; injection H as <-; repeat split; auto;
                                     intros [Hs | Hs]; discriminate Hs]).
  destruct (String.eqb_spec s "A1"), (String.eqb_spec s "A12"); cbn [orb]; subst;
    try (destruct (InstrumentContext.char_in "H"%char e) eqn:Eh;
         [intros H; discriminate H | intros H; injection H as <-; repeat split; auto;
                                     intros [Hs | Hs]; congruence]).
  intros H; injection H as <-; repeat split; auto; intros [Hs | Hs]; congruence.
Qed.

End ExtraFacts.

(** The resolver raises [CommandPreconditionViolated] exactly on a
    single-channel pipette and [CommandParameterLimitViolated] only for
    ROW on an 8-channel pipette or the style ["PARTIAL_COLUM"] on a
    96-channel pipette; any other exception it raises is a [KeyError]. *)
Theorem resolver_error_classes (ch : nat) (style : string) (p fr bl : option string)
    (e : exn) :
  NozzleLayoutResolver._available_for_nozzle_layout ch style p fr bl = Raise e ->
  (e = CommandPreconditionViolated /\ ch = 1)
  \/ (e = CommandParameterLimitViolated /\ ch <> 1 /\ style <> "ALL"
      /\ ((style = "ROW" /\ ch = 8) \/ (style = "PARTIAL_COLUM" /\ ch = 96)))
  \/ (exists k, e = KeyError k).
Proof.
  unfold NozzleLayoutResolver._available_for_nozzle_layout.
  destruct (Nat.eqb_spec ch 1) as [Hc | Hc].
  { intros H. injection H as <-. left. auto. }
  destruct (String.eqb_spec style "ALL") as [Ha | Ha]; [discriminate |].
  destruct (String.eqb_spec style "ROW") as [Hr | Hr], (Nat.eqb_spec ch 8) as [H8 | H8];
    cbn [andb];
    try (intros H; injection H as <-; right; left; repeat split; auto; fail).
  all: destruct (String.eqb_spec style "PARTIAL_COLUM") as [Hp | Hp],
         (Nat.eqb_spec ch 96) as [H96 | H96]; cbn [andb];
    try (intros H; injection H as <-; right; left; repeat split; auto; fail).
  all: try intros H; right; right; revert H; destruct p as [s |]; [| discriminate].
  all: ExtraFacts.resolver_cases; intros Hres; try discriminate Hres; injection Hres as <-;
       eapply ExtraFacts.lookup2_raise; eassumption.
Qed.

(** Witness: ROW on an 8-channel pipette. *)
Lemma resolver_error_classes_witness :
  NozzleLayoutResolver._available_for_nozzle_layout 8 "ROW" (Some "A1") None None
  = Raise CommandParameterLimitViolated
  /\ ((CommandParameterLimitViolated = CommandPreconditionViolated /\ 8 = 1)
      \/ (CommandParameterLimitViolated = CommandParameterLimitViolated /\ 8 <> 1
          /\ "ROW" <> "ALL" /\ (("ROW" = "ROW" /\ 8 = 8) \/ ("ROW" = "PARTIAL_COLUM" /\ 8 = 96)))
      \/ (exists k, CommandParameterLimitViolated = KeyError k)).
Proof.
  split; [reflexivity |].
  apply (resolver_error_classes 8 "ROW" (Some "A1") None None); reflexivity.
Defined.

(** Every dict the resolver returns is empty (exactly for style ALL), holds
    only the primary nozzle, or holds the primary, front-right and
    back-left nozzles in that order; the primary nozzle is the one given
    when it is truthy and A1 otherwise. *)
Theorem resolver_result_shape (ch : nat) (style : string) (p fr bl : option string)
    (d : dict string) :
  NozzleLayoutResolver._available_for_nozzle_layout ch style p fr bl = Ok d ->
  let q := match p with Some s => if String.eqb s "" then "A1" else s | None => "A1" end in
  (style = "ALL" /\ d = [])
  \/ (style <> "ALL"
      /\ (d = [("primary_nozzle", q)]
          \/ exists f b, d = [("primary_nozzle", q); ("front_right_nozzle", f);
                              ("back_left_nozzle", b)])).
Proof.
  unfold NozzleLayoutResolver._available_for_nozzle_layout.
  destruct (Nat.eqb ch 1); [discriminate |].
  destruct (String.eqb_spec style "ALL") as [Ha | Ha].
  { intros H. injection H as <-. left. auto. }
  destruct (String.eqb style "ROW" && Nat.eqb ch 8); [discriminate |].
  destruct (String.eqb style "PARTIAL_COLUM" && Nat.eqb ch 96); [discriminate |].
  destruct p as [s |].
  2: { intros H. injection H as <-. right. split; [exact Ha | left; reflexivity]. }
  unfold truthy at 1 2. destruct (String.eqb s "") eqn:Es; cbn [negb].
  { intros H. injection H as <-. right. split; [exact Ha | left; reflexivity]. }
  ExtraFacts.resolver_cases; intros H; try discriminate H; injection H as <-;
    right; split; try exact Ha; (left; reflexivity) || (right; eauto).
Qed.

(** Witness: COLUMN on a 96-channel pipette from primary nozzle A1. *)
Lemma resolver_result_shape_witness :
  NozzleLayoutResolver._available_for_nozzle_layout 96 "COLUMN" (Some "A1") None None
  = Ok [("primary_nozzle", "A1"); ("front_right_nozzle", "H1"); ("back_left_nozzle", "A1")]
  /\ (("COLUMN" = "ALL"
       /\ [("primary_nozzle", "A1"); ("front_right_nozzle", "H1"); ("back_left_nozzle", "A1")] = [])
      \/ ("COLUMN" <> "ALL"
          /\ ([("primary_nozzle", "A1"); ("front_right_nozzle", "H1"); ("back_left_nozzle", "A1")]
              = [("primary_nozzle", "A1")]
              \/ exists f b,
                   [("primary_nozzle", "A1"); ("front_right_nozzle", "H1");
                    ("back_left_nozzle", "A1")]
                   = [("primary_nozzle", "A1"); ("front_right_nozzle", f);
                      ("back_left_nozzle", b)]))).
Proof.
  split; [reflexivity |].
  exact (resolver_result_shape 96 "COLUMN" (Some "A1") None None
           [("primary_nozzle", "A1"); ("front_right_nozzle", "H1"); ("back_left_nozzle", "A1")]
           eq_refl).
Defined.

(** On a multi-channel pipette, a style other than ALL and SINGLE that
    passes the limit checks, given a non-empty primary nozzle and both
    corners non-empty, resolves to exactly the three nozzles given (no map
    lookup, so no [KeyError]), for every style name. *)
Theorem resolver_keeps_given_corners (ch : nat) (style p f b : string) :
  ch <> 1 -> style <> "ALL" -> style <> "SINGLE" ->
  ~ (style = "ROW" /\ ch = 8) -> ~ (style = "PARTIAL_COLUM" /\ ch = 96) ->
  p <> "" -> f <> "" -> b <> "" ->
  NozzleLayoutResolver._available_for_nozzle_layout ch style (Some p) (Some f) (Some b)
  = Ok [("primary_nozzle", p); ("front_right_nozzle", f); ("back_left_nozzle", b)].
Proof.
  intros Hc Ha Hs Hr Hpc Hp Hf Hb.
  unfold NozzleLayoutResolver._available_for_nozzle_layout, truthy.
  apply String.eqb_neq in Hp, Hf, Hb. rewrite Hp, Hf, Hb.
  destruct (Nat.eqb_spec ch 1); [contradiction |].
  destruct (String.eqb_spec style "ALL"); [contradiction |].
  destruct (String.eqb_spec style "ROW"), (Nat.eqb_spec ch 8); try tauto; cbn [andb].
  all: destruct (String.eqb_spec style "PARTIAL_COLUM"), (Nat.eqb_spec ch 96); try tauto;
       cbn [andb negb].
  all: destruct (String.eqb_spec style "SINGLE"); [contradiction |].
  all: rewrite !andb_false_r; reflexivity.
Qed.

(** Witness: PARTIAL_COLUMN on an 8-channel pipette with the corners the
    protocol API resolves for start A1 and end D1. *)
Lemma resolver_keeps_given_corners_witness :
  NozzleLayoutResolver._available_for_nozzle_layout 8 "PARTIAL_COLUMN" (Some "A1") (Some "D1")
    (Some "A1")
  = Ok [("primary_nozzle", "A1"); ("front_right_nozzle", "D1"); ("back_left_nozzle", "A1")].
Proof.
  apply (resolver_keeps_given_corners 8 "PARTIAL_COLUMN" "A1" "D1" "A1");
    try discriminate; intros [H _]; discriminate.
Defined.

(** A QUADRANT layout on a multi-channel pipette given a non-empty primary
    nozzle and only one non-empty corner uses the primary nozzle as the
    missing corner: the given front-right corner gets the primary nozzle
    as back-left, the given back-left corner gets it as front-right. *)
Theorem resolver_quadrant_fills_corner (ch : nat) (p c : string) :
  ch <> 1 -> p <> "" -> c <> "" ->
  NozzleLayoutResolver._available_for_nozzle_layout ch "QUADRANT" (Some p) (Some c) None
  = Ok [("primary_nozzle", p); ("front_right_nozzle", c); ("back_left_nozzle", p)]
  /\ NozzleLayoutResolver._available_for_nozzle_layout ch "QUADRANT" (Some p) None (Some c)
  = Ok [("primary_nozzle", p); ("front_right_nozzle", p); ("back_left_nozzle", c)].
Proof.
  intros Hc Hp Hcn.
  unfold NozzleLayoutResolver._available_for_nozzle_layout, truthy.
  apply String.eqb_neq in Hp, Hcn. rewrite Hp, Hcn.
  destruct (Nat.eqb_spec ch 1); [contradiction |].
  split; reflexivity.
Qed.

(** Witness: a 96-channel pipette with primary nozzle A1 and corner H6. *)
Lemma resolver_quadrant_fills_corner_witness :
  NozzleLayoutResolver._available_for_nozzle_layout 96 "QUADRANT" (Some "A1") (Some "H6") None
  = Ok [("primary_nozzle", "A1"); ("front_right_nozzle", "H6"); ("back_left_nozzle", "A1")]
  /\ NozzleLayoutResolver._available_for_nozzle_layout 96 "QUADRANT" (Some "A1") None (Some "H6")
  = Ok [("primary_nozzle", "A1"); ("front_right_nozzle", "A1"); ("back_left_nozzle", "H6")].
Proof.
  apply (resolver_quadrant_fills_corner 96 "A1" "H6"); discriminate.
Defined.

(** A COLUMN or ROW layout on a multi-channel pipette (ROW not on an
    8-channel one) given only a corner primary nozzle always resolves,
    with both corners read from the two maps; the resolved front-right and
    back-left nozzles coincide exactly for COLUMN from H1 or H12 and for
    ROW from A12 or H12. *)
Theorem resolver_column_row_from_primary (ch : nat) (style p : string) :
  ch <> 1 -> In style ["COLUMN"; "ROW"] -> ~ (style = "ROW" /\ ch = 8) ->
  In p ResolverFacts.corners ->
  exists f b,
    NozzleLayoutResolver._available_for_nozzle_layout ch style (Some p) None None
    = Ok [("primary_nozzle", p); ("front_right_nozzle", f); ("back_left_nozzle", b)]
    /\ (f = b <-> (style = "COLUMN" /\ In p ["H1"; "H12"])
                  \/ (style = "ROW" /\ In p ["A12"; "H12"])).
Proof.
  intros Hc Hs Hr Hp.
  unfold NozzleLayoutResolver._available_for_nozzle_layout.
  destruct (Nat.eqb_spec ch 1); [contradiction |].
  destruct (Nat.eqb_spec ch 8) as [H8 | H8];
  destruct (Nat.eqb_spec ch 96) as [H96 | H96];
  unfold ResolverFacts.corners in Hp; simpl in Hs, Hp;
  destruct Hs as [<- | [<- | []]];
  destruct Hp as [<- | [<- | [<- | [<- | []]]]]; try (exfalso; tauto);
  simpl; rewrite ?andb_false_r; eexists; eexists; (split; [reflexivity |]);
  split; intros H; simpl in *; intuition congruence.
Qed.

(** Witness: COLUMN on a 96-channel pipette from primary nozzle H1. *)
Lemma resolver_column_row_from_primary_witness :
  exists f b,
    NozzleLayoutResolver._available_for_nozzle_layout 96 "COLUMN" (Some "H1") None None
    = Ok [("primary_nozzle", "H1"); ("front_right_nozzle", f); ("back_left_nozzle", b)]
    /\ (f = b <-> ("COLUMN" = "COLUMN" /\ In "H1" ["H1"; "H12"])
                  \/ ("COLUMN" = "ROW" /\ In "H1" ["A12"; "H12"])).
Proof.
  apply (resolver_column_row_from_primary 96 "COLUMN" "H1").
  - discriminate.
  - simpl; auto.
  - intros [H _]; discriminate.
  - unfold ResolverFacts.corners; simpl; auto.
Defined.





(** When [HardwareTipHandler.drop_tip] raises, the hardware's tip
    bookkeeping is unchanged, and the exception is either the drop
    motion's own or [TipAttachedError] from a requested verification on
    OT-3 hardware. *)
Theorem drop_tip_errors (hw : Hardware) (do_not_ignore : bool) (st st' : HwState) (e : exn) :
  TipHandler.drop_tip hw do_not_ignore st = (Raise e, st') ->
  st' = st
  /\ (drop_moves_error hw = Some e
      \/ (e = TipAttachedError /\ do_not_ignore = true /\ is_ot3 hw = true)).
Proof.
  unfold TipHandler.drop_tip, TipHandler.tip_drop_moves.
  destruct (drop_moves_error hw) as [e0 |].
  { cbn. intros H. injection H as <- <-. auto. }
  cbn [mbind ret lift].
  destruct do_not_ignore; [| cbn; discriminate].
  destruct (TipHandler.verify_tip_presence hw ABSENT None) as [[] | e0] eqn:Hv;
    cbn; [discriminate |].
  destruct (ExtraFacts.verify_raise hw ABSENT None e0 Hv) as [Hot3 ->].
  intros H. injection H as <- <-. auto.
Qed.

(** Witness: dropping with verification on a Flex whose sensor still
    reads PRESENT. *)
Lemma drop_tip_errors_witness :
  TipHandler.drop_tip (mkHardware true (fun _ => PRESENT) None None) true
    (mkHwState (Some 50%Q) 5 (Some 200%Q) true)
  = (Raise TipAttachedError, mkHwState (Some 50%Q) 5 (Some 200%Q) true)
  /\ (mkHwState (Some 50%Q) 5 (Some 200%Q) true = mkHwState (Some 50%Q) 5 (Some 200%Q) true
      /\ (drop_moves_error (mkHardware true (fun _ => PRESENT) None None) = Some TipAttachedError
          \/ (TipAttachedError = TipAttachedError /\ true = true
              /\ is_ot3 (mkHardware true (fun _ => PRESENT) None None) = true))).
Proof.
  split; [reflexivity |].
  exact (drop_tip_errors (mkHardware true (fun _ => PRESENT) None None) true
           (mkHwState (Some 50%Q) 5 (Some 200%Q) true) (mkHwState (Some 50%Q) 5 (Some 200%Q) true)
           TipAttachedError eq_refl).
Defined.


(** Presence configuration: it only ever raises [ValueError], and a
    single sensor to follow is chosen only for a 96-channel pipette with a
    partial layout other than SINGLE and at least 4 active tips, where
    sensing is supported. *)
Theorem tip_presence_config_outcomes (pv : PipetteView) :
  (forall e, TipHandler.get_tip_presence_config pv = Raise e -> e = ValueError)
  /\ (forall s f, TipHandler.get_tip_presence_config pv = Ok (s, Some f) ->
      channels pv = 96 /\ s = true
      /\ configuration (nozzle_configuration pv) <> FULL
      /\ configuration (nozzle_configuration pv) <> SINGLE
      /\ 4 <= tip_count (nozzle_configuration pv)).
Proof.
  split; [exact (ExtraFacts.get_tip_presence_config_raise pv) |].
  intros s f.
  destruct pv as [ch [cfg sn bl fr tc] at_ ser].
  unfold TipHandler.get_tip_presence_config, TipHandler.supported_partial_nozzle_minimum;
  cbn [channels nozzle_configuration tip_count configuration back_left front_right].
  destruct (Nat.eqb_spec ch 1); [intros H; discriminate H |].
  destruct (Nat.eqb_spec ch 8); [intros H; discriminate H |].
  destruct (Nat.eqb_spec ch 96) as [-> | ]; [| intros H; discriminate H].
  destruct (Nat.leb_spec 4 tc) as [Htc | Htc].
  - destruct cfg; cbn [config_eqb negb andb];
      try (intros H; discriminate H);
      (destruct (TipHandler.tip_on_left_side_96 bl) as [l |]; cbn [bind]; [| discriminate]);
      (destruct (TipHandler.tip_on_right_side_96 fr) as [r |]; cbn [bind]; [| discriminate]);
      destruct l, r; cbn; intros H; injection H as <- _;
      repeat split; auto; discriminate.
  - destruct cfg; cbn; rewrite ?andb_false_r; cbn; intros H; discriminate H.
Qed.

(** Version gates of [InstrumentContext.configure_nozzle_layout]: a call
    succeeds only from API version 2.16, never for QUADRANT, and below 2.20
    only for COLUMN or ALL. From 2.16 on, ALL always succeeds and hands on
    [start], [front_right] and [back_left] unchanged, ignoring [end]. *)
Theorem configure_nozzle_layout_version_gates (api : InstrumentContext.APIVersion)
    (ch : nat) (style : InstrumentContext.NozzleLayout)
    (start end_ front_right back_left : option string) :
  (forall r, InstrumentContext.configure_nozzle_layout api ch style start end_ front_right
               back_left = Ok r ->
     InstrumentContext.ver_ge api (2, 16) = true
     /\ style <> InstrumentContext.L_QUADRANT
     /\ (InstrumentContext.ver_lt api (2, 20) = true ->
         style = InstrumentContext.L_COLUMN \/ style = InstrumentContext.L_ALL))
  /\ (InstrumentContext.ver_ge api (2, 16) = true ->
      InstrumentContext.configure_nozzle_layout api ch InstrumentContext.L_ALL start end_
        front_right back_left = Ok (start, front_right, back_left)).
Proof.
  unfold InstrumentContext.configure_nozzle_layout,
    InstrumentContext._PARTIAL_NOZZLE_CONFIGURATION_SINGLE_ROW_PARTIAL_COLUMN_ADDED_IN,
    InstrumentContext.ver_ge.
  split.
  - intros r.
    destruct (InstrumentContext.ver_lt api (2, 16)); [discriminate |].
    destruct (InstrumentContext.ver_lt api (2, 20)), style; cbn;
      try (intros H; discriminate H); intros _; repeat split; auto;
      try discriminate; intros H; discriminate H.
  - destruct (InstrumentContext.ver_lt api (2, 16)); [discriminate |].
    intros _. rewrite andb_false_r. reflexivity.
Qed.

(** What a successful [InstrumentContext.configure_nozzle_layout] call
    guarantees: for every style but ALL the [start] given is one of A1, H1,
    A12, H12 and is handed on as the primary nozzle; COLUMN and ROW only
    succeed on a 96-channel pipette and PARTIAL_COLUMN on an 8-channel
    one; SINGLE, COLUMN and ROW only succeed with falsy [end],
    [front_right] and [back_left], which are handed on unchanged. *)
Theorem configure_nozzle_layout_success (api : InstrumentContext.APIVersion) (ch : nat)
    (style : InstrumentContext.NozzleLayout) (start end_ front_right back_left : option string)
    (p fr bl : option string) :
  InstrumentContext.configure_nozzle_layout api ch style start end_ front_right back_left
  = Ok (p, fr, bl) ->
  (style <> InstrumentContext.L_ALL ->
   exists s, start = Some s /\ p = Some s /\ In s InstrumentContext.ALLOWED_PRIMARY_NOZZLES)
  /\ (style = InstrumentContext.L_COLUMN \/ style = InstrumentContext.L_ROW -> ch = 96)
  /\ (style = InstrumentContext.L_PARTIAL_COLUMN -> ch = 8)
  /\ (style = InstrumentContext.L_SINGLE \/ style = InstrumentContext.L_COLUMN
      \/ style = InstrumentContext.L_ROW ->
      truthy end_ = false /\ truthy front_right = false /\ truthy back_left = false
      /\ fr = front_right /\ bl = back_left).
Proof.
  pose proof ExtraFacts.check_start_ok as Hstart.
  assert (Hany : forall a b c, InstrumentContext._raise_if_has_end_or_front_right_or_back_left
                                 a b c = Ok tt ->
            truthy a = false /\ truthy b = false /\ truthy c = false).
  { intros a b c. unfold InstrumentContext._raise_if_has_end_or_front_right_or_back_left,
      InstrumentContext.any_truthy. cbn.
    destruct (truthy a), (truthy b), (truthy c); cbn; try (intros H; discriminate H); auto. }
  unfold InstrumentContext.configure_nozzle_layout.
  destruct (InstrumentContext.ver_lt api (2, 16)); [discriminate |].
  destruct style; cbn [andb]; try discriminate;
    destruct (InstrumentContext.ver_lt api _); cbn [andb]; try discriminate.
  all: intros H.
  (* SINGLE *)
  1: destruct (InstrumentContext._check_valid_start_nozzle start) as [v |] eqn:Hv;
       cbn [bind] in H; [| discriminate H];
       destruct (InstrumentContext._raise_if_has_end_or_front_right_or_back_left
                   end_ front_right back_left) as [[] |] eqn:Ha;
       cbn [bind] in H; [| discriminate H];
       injection H as <- <- <-;
       destruct (Hstart _ _ Hv) as [-> Hin]; destruct (Hany _ _ _ Ha) as [H1 [H2 H3]];
       intuition (try discriminate; eauto).
  (* ROW and COLUMN *)
  1-3: destruct (InstrumentContext._raise_if_configuration_not_supported_by_pipette ch _)
         as [[] |] eqn:Hc; cbn [bind] in H; [| discriminate H];
       cbn in Hc; destruct (Nat.eqb_spec ch 96); [| discriminate Hc];
       destruct (InstrumentContext._check_valid_start_nozzle start) as [v |] eqn:Hv;
       cbn [bind] in H; [| discriminate H];
       destruct (InstrumentContext._raise_if_has_end_or_front_right_or_back_left
                   end_ front_right back_left) as [[] |] eqn:Ha;
       cbn [bind] in H; [| discriminate H];
       injection H as <- <- <-;
       destruct (Hstart _ _ Hv) as [-> Hin]; destruct (Hany _ _ _ Ha) as [H1 [H2 H3]];
       intuition (try discriminate; eauto).
  (* PARTIAL_COLUMN *)
  1: destruct (InstrumentContext._raise_if_configuration_not_supported_by_pipette ch _)
         as [[] |] eqn:Hc; cbn [bind] in H; [| discriminate H];
       cbn in Hc; destruct (Nat.eqb_spec ch 8); [| discriminate Hc];
       destruct (InstrumentContext._check_valid_start_nozzle start) as [v |] eqn:Hv;
       cbn [bind] in H; [| discriminate H];
       destruct (Hstart _ _ Hv) as [-> Hin];
       destruct (InstrumentContext._check_valid_end_nozzle v end_) as [w |];
       cbn [bind] in H; [| discriminate H];
       destruct (InstrumentContext._raise_if_has_front_right_or_back_left_for_partial_column
                   front_right back_left) as [[] |];
       cbn [bind] in H; [| discriminate H];
       destruct (String.eqb v "H1" || String.eqb v "H12");
       [| destruct (String.eqb v "A1" || String.eqb v "A12")];
       injection H as <- _ _;
       intuition (try discriminate; eauto).
  (* ALL *)
  all: intuition (try discriminate; eauto).
Qed.

(** Witness: a COLUMN layout from A1 on a 96-channel pipette at API
    version 2.20. *)
Lemma configure_nozzle_layout_success_witness :
  InstrumentContext.configure_nozzle_layout (2, 20) 96 InstrumentContext.L_COLUMN
    (Some "A1") None None None = Ok (Some "A1", None, None)
  /\ (InstrumentContext.L_COLUMN <> InstrumentContext.L_ALL ->
      exists s, Some "A1" = Some s /\ Some "A1" = Some s
                /\ In s InstrumentContext.ALLOWED_PRIMARY_NOZZLES)
  /\ (InstrumentContext.L_COLUMN = InstrumentContext.L_COLUMN
      \/ InstrumentContext.L_COLUMN = InstrumentContext.L_ROW -> 96 = 96)
  /\ (InstrumentContext.L_COLUMN = InstrumentContext.L_PARTIAL_COLUMN -> 96 = 8)
  /\ (InstrumentContext.L_COLUMN = InstrumentContext.L_SINGLE
      \/ InstrumentContext.L_COLUMN = InstrumentContext.L_COLUMN
      \/ InstrumentContext.L_COLUMN = InstrumentContext.L_ROW ->
      truthy None = false /\ truthy None = false /\ truthy None = false
      /\ @None string = None /\ @None string = None).
Proof.
  split; [reflexivity |].
  exact (configure_nozzle_layout_success (2, 20) 96 InstrumentContext.L_COLUMN
           (Some "A1") None None None (Some "A1") None None eq_refl).
Defined.

(** A successful PARTIAL_COLUMN call has a corner [start] and an [end]
    that shares no row letter with it and does not reach the opposite edge
    row (no A for a start in row H, no H for a start in row A). A start in
    row H becomes the front-right nozzle with [end] as back-left; a start
    in row A becomes the back-left nozzle with [end] as front-right. *)
Theorem configure_partial_column_corners (api : InstrumentContext.APIVersion) (ch : nat)
    (start end_ front_right back_left p fr bl : option string) :
  InstrumentContext.configure_nozzle_layout api ch InstrumentContext.L_PARTIAL_COLUMN
    start end_ front_right back_left = Ok (p, fr, bl) ->
  exists s e,
    start = Some s /\ end_ = Some e /\ p = Some s
    /\ InstrumentContext.char_in (InstrumentContext.first_char s) e = false
    /\ ((In s ["H1"; "H12"] /\ InstrumentContext.char_in "A"%char e = false
         /\ fr = Some s /\ bl = Some e)
        \/ (In s ["A1"; "A12"] /\ InstrumentContext.char_in "H"%char e = false
            /\ fr = Some e /\ bl = Some s)).
Proof.
  unfold InstrumentContext.configure_nozzle_layout.
  destruct (InstrumentContext.ver_lt api (2, 16)); [discriminate |].
  cbn [andb]. destruct (InstrumentContext.ver_lt api _); cbn [andb]; [discriminate |].
  destruct (InstrumentContext._raise_if_configuration_not_supported_by_pipette ch _)
    as [[] |]; cbn [bind]; [| discriminate].
  destruct (InstrumentContext._check_valid_start_nozzle start) as [v |] eqn:Hv;
    cbn [bind]; [| discriminate].
  destruct (ExtraFacts.check_start_ok start v Hv) as [-> Hin].
  destruct (InstrumentContext._check_valid_end_nozzle v end_) as [w |] eqn:Hw;
    cbn [bind]; [| discriminate].
  destruct (ExtraFacts.check_end_ok v end_ w Hw) as [-> [Hrow [HH HA]]].
  destruct (InstrumentContext._raise_if_has_front_right_or_back_left_for_partial_column
              front_right back_left) as [[] |]; cbn [bind]; [| discriminate].
  unfold InstrumentContext.ALLOWED_PRIMARY_NOZZLES in Hin.
  destruct Hin as [<- | [<- | [<- | [<- | []]]]].
  all: simpl; intros H; injection H as <- <- <-; do 2 eexists.
  all: do 3 (split; [reflexivity |]); split; [exact Hrow |].
  all: first
    [ left; split; [simpl; auto |]; split; [apply HH; auto |]; split; reflexivity
    | right; split; [simpl; auto |]; split; [apply HA; auto |]; split; reflexivity ].
Qed.

(** Witness: PARTIAL_COLUMN from H12 to E12 on an 8-channel pipette at
    API version 2.20. *)
Lemma configure_partial_column_corners_witness :
  InstrumentContext.configure_nozzle_layout (2, 20) 8 InstrumentContext.L_PARTIAL_COLUMN
    (Some "H12") (Some "E12") None None = Ok (Some "H12", Some "H12", Some "E12")
  /\ exists s e,
    Some "H12" = Some s /\ Some "E12" = Some e /\ Some "H12" = Some s
    /\ InstrumentContext.char_in (InstrumentContext.first_char s) e = false
    /\ ((In s ["H1"; "H12"] /\ InstrumentContext.char_in "A"%char e = false
         /\ Some "H12" = Some s /\ Some "E12" = Some e)
        \/ (In s ["A1"; "A12"] /\ InstrumentContext.char_in "H"%char e = false
            /\ Some "H12" = Some e /\ Some "E12" = Some s)).
Proof.
  split; [reflexivity |].
  exact (configure_partial_column_corners (2, 20) 8 (Some "H12") (Some "E12") None None
           (Some "H12") (Some "H12") (Some "E12") eq_refl).
Defined.

(** What a successful [InstrumentContext.pick_up_tip] argument check
    guarantees: [presses] and [increment] were only given below API
    version 2.14 and [prep_after] only from 2.13; without a location the
    tip tracking was available, the next available tip is taken (from
    [starting_tip]), and [starting_tip] was unset, the configuration FULL
    or the API version below 2.18; a well location (direct or through a
    [Location]) is used as is and a tip rack location selects the next tip
    in that rack; any other location never succeeds. *)
Theorem pick_up_tip_checks_passed (api : InstrumentContext.APIVersion)
    (presses : option nat) (increment : option Q) (prep_after : option bool)
    (location : InstrumentContext.PickUpLocation) (starting_tip : option string)
    (nozzle_config : NozzleConfigurationType) (tip_tracking_available : bool)
    (sel : InstrumentContext.TipSelection) :
  InstrumentContext.pick_up_tip api presses increment prep_after location starting_tip
    nozzle_config tip_tracking_available = Ok sel ->
  (presses = None \/ InstrumentContext.ver_lt api (2, 14) = true)
  /\ (increment = None \/ InstrumentContext.ver_lt api (2, 14) = true)
  /\ (prep_after = None \/ InstrumentContext.ver_ge api (2, 13) = true)
  /\ match location with
     | InstrumentContext.NoLocation =>
         tip_tracking_available = true
         /\ sel = InstrumentContext.NextAvailableTip starting_tip
         /\ (starting_tip = None \/ nozzle_config = FULL
             \/ InstrumentContext.ver_lt api (2, 18) = true)
     | InstrumentContext.AtWell w | InstrumentContext.AtLocationOfWell w =>
         sel = InstrumentContext.ExplicitWell w
     | InstrumentContext.AtLabware l | InstrumentContext.AtLocationOfLabware l =>
         sel = InstrumentContext.NextAvailableTipIn l
     | InstrumentContext.AtOtherLocation => False
     end.
Proof.
  unfold InstrumentContext.pick_up_tip, InstrumentContext.ver_ge,
    InstrumentContext._PRESSES_INCREMENT_REMOVED_IN, InstrumentContext._PREP_AFTER_ADDED_IN,
    InstrumentContext._PARTIAL_NOZZLE_CONFIGURATION_AUTOMATIC_TIP_TRACKING_IN.
  destruct presses as [x |], (InstrumentContext.ver_lt api (2, 14));
    cbn [InstrumentContext.is_not_none negb andb]; try (intros H; discriminate H).
  all: destruct increment as [y |]; cbn [InstrumentContext.is_not_none negb andb];
       try (intros H; discriminate H).
  all: destruct prep_after as [z |], (InstrumentContext.ver_lt api (2, 13));
       cbn [InstrumentContext.is_not_none negb andb]; try (intros H; discriminate H).
  all: destruct (InstrumentContext.ver_lt api (2, 18)) eqn:E18; cbn [negb].
  all: destruct location; cbn [InstrumentContext.is_not_none negb andb];
       try (intros H; discriminate H);
       try (intros H; injection H as <-; repeat split; auto; fail).
  all: destruct (config_eqb nozzle_config FULL) eqn:Ef, starting_tip as [t |];
       cbn [negb andb InstrumentContext.is_not_none]; try (intros H; discriminate H);
       destruct tip_tracking_available; cbn; try (intros H; discriminate H);
       intros H; injection H as <-; repeat split; auto;
       try (right; left; destruct nozzle_config; try discriminate Ef; reflexivity).
Qed.

(** Witness: API version 2.20, no location, a FULL configuration, a
    starting tip and tip tracking available. *)
Lemma pick_up_tip_checks_passed_witness :
  InstrumentContext.pick_up_tip (2, 20) None None (Some true) InstrumentContext.NoLocation
    (Some "B1") FULL true = Ok (InstrumentContext.NextAvailableTip (Some "B1"))
  /\ ((@None nat = None \/ InstrumentContext.ver_lt (2, 20) (2, 14) = true)
      /\ (@None Q = None \/ InstrumentContext.ver_lt (2, 20) (2, 14) = true)
      /\ (Some true = None \/ InstrumentContext.ver_ge (2, 20) (2, 13) = true)
      /\ (true = true
          /\ InstrumentContext.NextAvailableTip (Some "B1")
             = InstrumentContext.NextAvailableTip (Some "B1")
          /\ (Some "B1" = None \/ FULL = FULL
              \/ InstrumentContext.ver_lt (2, 20) (2, 18) = true))).
Proof.
  split; [reflexivity |].
  exact (pick_up_tip_checks_passed (2, 20) None None (Some true) InstrumentContext.NoLocation
           (Some "B1") FULL true (InstrumentContext.NextAvailableTip (Some "B1")) eq_refl).
Defined.



(** Mount conversions: the string value of every [MountType] parses with
    [Mount.string_to_mount] to the mount [to_hw_mount] gives; converting
    back with [from_hw_mount] returns the original for LEFT and RIGHT and
    raises [KeyError] for EXTENSION; and whenever [from_hw_mount]
    succeeds, [to_hw_mount] undoes it. *)
Theorem mount_conversions_round_trip :
  (forall m : MountType.MountType,
     Mount.string_to_mount (MountType.value m) = MountType.to_hw_mount m
     /\ MountType.from_hw_mount (MountType.to_hw_mount m)
        = match m with
          | MountType.EXTENSION => Raise (KeyError "EXTENSION")
          | _ => Ok m
          end)
  /\ (forall (hm : Mount.Mount) (m : MountType.MountType),
        MountType.from_hw_mount hm = Ok m -> MountType.to_hw_mount m = hm).
Proof.
  split.
  - intros []; split; reflexivity.
  - intros [] m H; injection H as <- || discriminate H; reflexivity.
Qed.

(** [MountType.other_mount] never returns its argument and never returns
    EXTENSION; applied twice it gives back LEFT and RIGHT but turns
    EXTENSION into LEFT. *)
Theorem other_mount_swaps (m : MountType.MountType) :
  MountType.other_mount m <> m
  /\ MountType.other_mount m <> MountType.EXTENSION
  /\ (MountType.other_mount (MountType.other_mount m) = m <-> m <> MountType.EXTENSION)
  /\ MountType.other_mount (MountType.other_mount MountType.EXTENSION) = MountType.LEFT.
Proof.
  destruct m; repeat split; try discriminate; try reflexivity;
    intros H; try reflexivity; try contradiction; discriminate H.
Qed.
